(** * workout_api: the Atleta resource controller

    A shallow embedding of [workout_api/atleta/controller.py]: the five
    request handlers [post], [query], [get], [patch] and [delete], written
    over an explicit model of the SQLAlchemy session they receive, and the
    properties of the handlers that the design document states.

    Layout: text and pattern matching; schemas and rows; the session and its
    transaction; the handler monad; the handlers; then the theorems. *)

From Stdlib Require Import List String Ascii Bool ZArith NArith QArith Lia.
Import ListNotations.
Local Open Scope string_scope.
Local Open Scope Z_scope.

(* ================================================================= *)
(** ** Text *)

Module Text.

(** Python's truthiness of a [str]: the empty string is falsy. *)
Definition truthy (s : string) : bool :=
  match s with
  | EmptyString => false
  | String _ _ => true
  end.

(** *** Characters

    A [str] is a sequence of characters (code points).  The model keeps it
    as the bytes of its UTF-8 encoding, which is how a literal of this file
    reads, and [chars] gives the characters back: the engine matches
    character by character, not byte by byte.  A byte that does not start a
    well-formed sequence stands for itself. *)
Definition cont (b : ascii) : bool :=
  (N.leb 128 (N_of_ascii b) && N.ltb (N_of_ascii b) 192)%bool.

Definition low6 (b : ascii) : N := (N_of_ascii b - 128)%N.

Definition lead (lo hi : N) (b : ascii) : bool :=
  (N.leb lo (N_of_ascii b) && N.ltb (N_of_ascii b) hi)%bool.

Fixpoint chars (s : string) : list N :=
  match s with
  | EmptyString => []
  | String b0 s1 =>
      match s1 with
      | String b1 s2 =>
          if (lead 192 224 b0 && cont b1)%bool then
            ((N_of_ascii b0 - 192) * 64 + low6 b1)%N :: chars s2
          else
            match s2 with
            | String b2 s3 =>
                if (lead 224 240 b0 && cont b1 && cont b2)%bool then
                  ((N_of_ascii b0 - 224) * 4096 + low6 b1 * 64 + low6 b2)%N :: chars s3
                else
                  match s3 with
                  | String b3 s4 =>
                      if (lead 240 248 b0 && cont b1 && cont b2 && cont b3)%bool then
                        ((N_of_ascii b0 - 240) * 262144 + low6 b1 * 4096
                         + low6 b2 * 64 + low6 b3)%N :: chars s4
                      else N_of_ascii b0 :: chars s1
                  | EmptyString => N_of_ascii b0 :: chars s1
                  end
            | EmptyString => N_of_ascii b0 :: chars s1
            end
      | EmptyString => [N_of_ascii b0]
      end
  end.

(** The case folding of the [C] locale: the letters A to Z and no other.
    How a database folds a character depends on its locale; the session
    carries that function, and this one is the folding of the sample
    database. *)
Definition lower_ascii (c : N) : N :=
  if (N.leb 65 c && N.leb c 90)%bool then (c + 32)%N else c.

(** The folding of a Latin-1 locale: the accented capitals as well. *)
Definition lower_latin1 (c : N) : N :=
  if (N.leb 65 c && N.leb c 90)%bool then (c + 32)%N
  else if (N.leb 192 c && N.leb c 222 && negb (N.eqb c 215))%bool then (c + 32)%N
  else c.

(** *** SQL [LIKE] patterns

    [%] stands for any run of characters, [_] for any one character, and a
    backslash (the default escape of PostgreSQL, the engine this service is
    deployed on) makes the next character literal.  A pattern that ends in a
    lone escape is rejected by the engine.  The three pattern characters are
    read off the pattern as written: a locale's folding leaves them alone
    and maps no letter onto them. *)
Inductive tok : Type :=
| Any
| One
| Lit (c : N).

Definition percent : N := 37.
Definition underscore : N := 95.
Definition backslash : N := 92.

Definition tok_of (c : N) : tok :=
  if N.eqb c percent then Any
  else if N.eqb c underscore then One
  else Lit c.

Fixpoint like_tokens (p : list N) : option (list tok) :=
  match p with
  | [] => Some []
  | c :: p' =>
      if N.eqb c backslash then
        match p' with
        | [] => None
        | d :: p'' => option_map (cons (Lit d)) (like_tokens p'')
        end
      else option_map (cons (tok_of c)) (like_tokens p')
  end.

Section Folding.

(** How the database lower-cases a character. *)
Variable lower : N -> N.

Definition ieqb (c d : N) : bool := N.eqb (lower c) (lower d).

(** Matching of a tokenised pattern against the whole of [s], characters
    compared after folding. *)
Fixpoint like_match (p : list tok) (s : list N) {struct p} : bool :=
  match p with
  | [] => match s with [] => true | _ :: _ => false end
  | Any :: p' =>
      (fix skip (s : list N) : bool :=
         like_match p' s ||
         match s with
         | [] => false
         | _ :: s' => skip s'
         end) s
  | One :: p' =>
      match s with
      | [] => false
      | _ :: s' => like_match p' s'
      end
  | Lit c :: p' =>
      match s with
      | [] => false
      | d :: s' => ieqb c d && like_match p' s'
      end
  end.

(** [column.ilike(pattern)]: [None] when the engine rejects the pattern. *)
Definition ilike (s pattern : string) : option bool :=
  option_map (fun p => like_match p (chars s)) (like_tokens (chars pattern)).

(** *** Case-insensitive containment, as the design document words it

    [icontains sub s]: [sub] occurs in [s] as a contiguous run of
    characters, compared after folding. *)
Fixpoint iprefix (p s : list N) : bool :=
  match p, s with
  | [], _ => true
  | _ :: _, [] => false
  | c :: p', d :: s' => ieqb c d && iprefix p' s'
  end.

Fixpoint icontains (sub s : list N) : bool :=
  iprefix sub s ||
  match s with
  | [] => false
  | _ :: s' => icontains sub s'
  end.

End Folding.

(** A filter with none of the three pattern characters. *)
Definition meta (c : N) : bool :=
  N.eqb c percent || N.eqb c underscore || N.eqb c backslash.

Definition plain (s : string) : bool := forallb (fun c => negb (meta c)) (chars s).

(** *** Rendering of a UUID: 32 lower-case hex digits grouped 8-4-4-4-12. *)
Definition hex_digit (n : N) : ascii :=
  match String.get (N.to_nat n) "0123456789abcdef" with
  | Some c => c
  | None => "0"%char
  end.

Fixpoint hex_fixed (k : nat) (n : N) : string :=
  match k with
  | O => EmptyString
  | S k' => hex_fixed k' (n / 16)%N ++ String (hex_digit (n mod 16)%N) EmptyString
  end.

End Text.

(* ================================================================= *)
(** ** Schemas and rows *)

Definition UUID : Type := N.
Definition datetime : Type := Z.

(** [str(uuid)] *)
Definition uuid_str (u : UUID) : string :=
  let h := Text.hex_fixed 32 u in
  substring 0 8 h ++ "-" ++ substring 8 4 h ++ "-" ++ substring 12 4 h ++ "-"
    ++ substring 16 4 h ++ "-" ++ substring 20 12 h.

(** Modelled from the spec: the reference schemas nested in [AtletaIn]
    ([workout_api/categorias/schemas.py] and
    [workout_api/centro_treinamento/schemas.py] are not part of the sources at
    hand); the controller reads only their [nome]. *)
Record CategoriaIn : Type := { categoria_in_nome : string }.
Record CentroTreinamentoAtleta : Type := { centro_in_nome : string }.

(** Modelled from the spec: [AtletaIn] of [workout_api/atleta/schemas.py],
    with the attributes the design document lists for a create request: name,
    CPF, weight, height, sex, category and training centre by name.  Weight
    and height are carried, never computed with. *)
Record AtletaIn : Type := {
  in_nome : string;
  in_cpf : string;
  in_peso : Q;
  in_altura : Q;
  in_sexo : string;
  in_categoria : CategoriaIn;
  in_centro_treinamento : CentroTreinamentoAtleta
}.

(** Modelled from the spec: [AtletaOut], the input attributes plus the
    generated identifier and the creation time; the controller builds it as
    [AtletaOut] from [id], [created_at] and the dumped fields of [atleta_in]. *)
Record AtletaOut : Type := {
  out_id : UUID;
  out_created_at : datetime;
  out_nome : string;
  out_cpf : string;
  out_peso : Q;
  out_altura : Q;
  out_sexo : string;
  out_categoria : CategoriaIn;
  out_centro_treinamento : CentroTreinamentoAtleta
}.

(** Modelled from the spec: [AtletaUpdate], every attribute optional;
    [None] is a field the request did not set, [Some v] one it set to the
    value [v].  A field sent as null is not represented. *)
Record AtletaUpdate : Type := {
  up_nome : option string;
  up_cpf : option string;
  up_peso : option Q;
  up_altura : option Q;
  up_sexo : option string
}.

(** Modelled from the spec: the reference tables
    ([workout_api/categorias/models.py],
    [workout_api/centro_treinamento/models.py]); the controller reads
    [pk_id] and filters by [nome]. *)
Record CategoriaModel : Type := { cat_pk_id : Z; cat_nome : string }.
Record CentroTreinamentoModel : Type := { ct_pk_id : Z; ct_nome : string }.

(** Modelled from the spec: [AtletaModel] of [workout_api/atleta/models.py],
    a row with an internal numeric primary key, the public identifier, the
    scalar attributes, and the two foreign keys. *)
Record AtletaModel : Type := {
  pk_id : Z;
  id : UUID;
  created_at : datetime;
  nome : string;
  cpf : string;
  peso : Q;
  altura : Q;
  sexo : string;
  categoria_id : Z;
  centro_treinamento_id : Z
}.

(** [AtletaOut] from [id], [created_at] and the dumped fields of [atleta_in] *)
Definition mk_AtletaOut (i : UUID) (t : datetime) (a : AtletaIn) : AtletaOut :=
  {| out_id := i; out_created_at := t;
     out_nome := in_nome a; out_cpf := in_cpf a; out_peso := in_peso a;
     out_altura := in_altura a; out_sexo := in_sexo a;
     out_categoria := in_categoria a;
     out_centro_treinamento := in_centro_treinamento a |}.

(** [AtletaModel] from the dumped fields of [atleta_out] other than
    [categoria] and [centro_treinamento], followed by the two foreign-key
    assignments.
    The primary key is not set by the controller: the database gives it when
    the row is inserted, [0] stands for the unset key until then. *)
Definition mk_AtletaModel (o : AtletaOut) (categoria_fk centro_fk : Z) : AtletaModel :=
  {| pk_id := 0; id := out_id o; created_at := out_created_at o;
     nome := out_nome o; cpf := out_cpf o; peso := out_peso o;
     altura := out_altura o; sexo := out_sexo o;
     categoria_id := categoria_fk; centro_treinamento_id := centro_fk |}.

Definition set_pk_id (k : Z) (a : AtletaModel) : AtletaModel :=
  {| pk_id := k; id := id a; created_at := created_at a; nome := nome a;
     cpf := cpf a; peso := peso a; altura := altura a; sexo := sexo a;
     categoria_id := categoria_id a;
     centro_treinamento_id := centro_treinamento_id a |}.

(** One entry of [atleta_up.model_dump(exclude_unset=True)]: a key together
    with its value. *)
Inductive item : Type :=
| item_nome (v : string)
| item_cpf (v : string)
| item_peso (v : Q)
| item_altura (v : Q)
| item_sexo (v : string).

Definition opt_item {A : Type} (f : A -> item) (o : option A) : list item :=
  match o with
  | Some v => [f v]
  | None => []
  end.

(** The dictionary of the fields that were set, in declaration order. *)
Definition model_dump_exclude_unset (u : AtletaUpdate) : list item :=
  opt_item item_nome (up_nome u) ++ opt_item item_cpf (up_cpf u)
    ++ opt_item item_peso (up_peso u) ++ opt_item item_altura (up_altura u)
    ++ opt_item item_sexo (up_sexo u).

(** [setattr(atleta, key, value)] *)
Definition setattr (a : AtletaModel) (kv : item) : AtletaModel :=
  match kv with
  | item_nome v =>
      {| pk_id := pk_id a; id := id a; created_at := created_at a; nome := v;
         cpf := cpf a; peso := peso a; altura := altura a; sexo := sexo a;
         categoria_id := categoria_id a;
         centro_treinamento_id := centro_treinamento_id a |}
  | item_cpf v =>
      {| pk_id := pk_id a; id := id a; created_at := created_at a; nome := nome a;
         cpf := v; peso := peso a; altura := altura a; sexo := sexo a;
         categoria_id := categoria_id a;
         centro_treinamento_id := centro_treinamento_id a |}
  | item_peso v =>
      {| pk_id := pk_id a; id := id a; created_at := created_at a; nome := nome a;
         cpf := cpf a; peso := v; altura := altura a; sexo := sexo a;
         categoria_id := categoria_id a;
         centro_treinamento_id := centro_treinamento_id a |}
  | item_altura v =>
      {| pk_id := pk_id a; id := id a; created_at := created_at a; nome := nome a;
         cpf := cpf a; peso := peso a; altura := v; sexo := sexo a;
         categoria_id := categoria_id a;
         centro_treinamento_id := centro_treinamento_id a |}
  | item_sexo v =>
      {| pk_id := pk_id a; id := id a; created_at := created_at a; nome := nome a;
         cpf := cpf a; peso := peso a; altura := altura a; sexo := v;
         categoria_id := categoria_id a;
         centro_treinamento_id := centro_treinamento_id a |}
  end.

(* ================================================================= *)
(** ** HTTP statuses and exceptions *)

Definition HTTP_200_OK : Z := 200.
Definition HTTP_201_CREATED : Z := 201.
Definition HTTP_204_NO_CONTENT : Z := 204.
Definition HTTP_400_BAD_REQUEST : Z := 400.
Definition HTTP_404_NOT_FOUND : Z := 404.
Definition HTTP_409_CONFLICT : Z := 409.
Definition HTTP_500_INTERNAL_SERVER_ERROR : Z := 500.

(** The constraint an [IntegrityError] reports. *)
Inductive constraint : Type :=
| uq_cpf
| other_constraint (name : string).

Inductive exn : Type :=
| IntegrityError (violated : constraint)
| OtherException (message : string)
| HTTPException (status_code : Z) (detail : string).

Definition constraint_str (c : constraint) : string :=
  match c with
  | uq_cpf => "atletas_cpf_key"
  | other_constraint name => name
  end.

Fixpoint digits (fuel : nat) (n : N) (acc : string) : string :=
  match fuel with
  | O => acc
  | S fuel' =>
      let acc' := String (ascii_of_N (48 + n mod 10)) acc in
      if (n / 10 =? 0)%N then acc' else digits fuel' (n / 10)%N acc'
  end.

Definition status_str (code : Z) : string :=
  let n := Z.to_N code in digits (S (N.to_nat (N.log2 n))) n EmptyString.

(** [str(e)], what the f-string of the last [except] branch interpolates. *)
Definition exn_str (e : exn) : string :=
  match e with
  | IntegrityError c => "violates constraint " ++ constraint_str c
  | OtherException message => message
  | HTTPException code detail => status_str code ++ ": " ++ detail
  end.

(** The failure kinds of the design document, read off the status a handler
    raises. *)
Inductive kind : Type :=
| ReferenceNotFound
| NotFound
| DuplicateKey
| PersistenceError.

Definition kind_of (e : exn) : option kind :=
  match e with
  | HTTPException code _ =>
      if code =? HTTP_400_BAD_REQUEST then Some ReferenceNotFound
      else if code =? HTTP_404_NOT_FOUND then Some NotFound
      else if code =? HTTP_409_CONFLICT then Some DuplicateKey
      else if code =? HTTP_500_INTERNAL_SERVER_ERROR then Some PersistenceError
      else None
  | _ => None
  end.


(* ================================================================= *)
(** ** The database session

    [DatabaseDependency] hands each handler an [AsyncSession].  The model
    keeps the three tables as committed, the athlete table as the
    transaction in flight sees it once the handler has written to it, and
    the case folding of the database's locale, which [ILIKE] applies. *)

Record Session : Type := {
  categorias : list CategoriaModel;
  centros_treinamento : list CentroTreinamentoModel;
  atletas : list AtletaModel;
  pending : option (list AtletaModel);
  db_lower : N -> N
}.

Definition set_pending (w : option (list AtletaModel)) (s : Session) : Session :=
  {| categorias := categorias s; centros_treinamento := centros_treinamento s;
     atletas := atletas s; pending := w; db_lower := db_lower s |}.

Definition set_atletas (rows : list AtletaModel) (s : Session) : Session :=
  {| categorias := categorias s; centros_treinamento := centros_treinamento s;
     atletas := rows; pending := pending s; db_lower := db_lower s |}.

(** The athlete table as statements of this session read it. *)
Definition view (s : Session) : list AtletaModel :=
  match pending s with
  | Some w => w
  | None => atletas s
  end.

(** What the handler cannot control: the value [uuid4()] returns, the clock,
    and whether the engine, apart from checking CPF uniqueness, turns the
    flush down ([reject]: another integrity constraint; [failure]: anything
    that is not an integrity violation, with its message). *)
Inductive fault : Type :=
| reject (name : string)
| failure (message : string).

Record Env : Type := {
  uuid4 : UUID;
  utcnow : datetime;
  flush_fault : option fault
}.

Fixpoint distinct (l : list string) : bool :=
  match l with
  | [] => true
  | x :: l' => negb (existsb (String.eqb x) l') && distinct l'
  end.

(** Modelled from the spec: the unique constraint on [AtletaModel.cpf]
    ("CPF is unique across all athlete records"). *)
Definition unique_cpf (rows : list AtletaModel) : bool := distinct (map cpf rows).

Inductive flush_outcome : Type :=
| Accepted
| Integrity (c : constraint)
| Failed (message : string).

(** The persistence step: what the engine answers when the transaction's
    rows are written. *)
Definition flush (env : Env) (rows : list AtletaModel) : flush_outcome :=
  match flush_fault env with
  | Some (failure message) => Failed message
  | Some (reject name) => Integrity (other_constraint name)
  | None => if unique_cpf rows then Accepted else Integrity uq_cpf
  end.

(** The key the database gives an inserted row: one past every key of the
    table.  Only its being new is used. *)
Definition next_pk (rows : list AtletaModel) : Z :=
  1 + fold_right Z.max 0 (map pk_id rows).

(* ================================================================= *)
(** ** The handler monad: a session threaded through, exceptions raised *)

Inductive outcome (A : Type) : Type :=
| Return (a : A)
| Raise (e : exn).
Arguments Return {A} a.
Arguments Raise {A} e.

Definition M (A : Type) : Type := Session -> outcome A * Session.

Definition ret {A : Type} (a : A) : M A := fun s => (Return a, s).

Definition raise {A : Type} (e : exn) : M A := fun s => (Raise e, s).

Definition bind {A B : Type} (m : M A) (k : A -> M B) : M B :=
  fun s =>
    match m s with
    | (Return a, s') => k a s'
    | (Raise e, s') => (Raise e, s')
    end.

(** [try: body / except ... as e: handler e] *)
Definition try_except {A : Type} (body : M A) (handler : exn -> M A) : M A :=
  fun s =>
    match body s with
    | (Return a, s') => (Return a, s')
    | (Raise e, s') => handler e s'
    end.

Notation "x <- m ;; k" := (bind m (fun x => k))
  (at level 61, m at next level, right associativity).
Notation "m ;;; k" := (bind m (fun _ => k))
  (at level 61, right associativity).

(** [(await db_session.execute(select(T).filter_by(...))).scalars().first()],
    for an engine that answers the [SELECT]. *)
Definition scalars_first {A : Type} (table : Session -> list A) (p : A -> bool)
  : M (option A) :=
  fun s => (Return (find p (table s)), s).

(** A [select(AtletaModel)] statement with its [WHERE] clauses, each a test
    of a row that the engine runs with its own case folding; [None] is a
    statement the engine rejects. *)
Definition stmt : Type := option ((N -> N) -> AtletaModel -> bool).

Definition select_AtletaModel : stmt := Some (fun _ _ => true).

Definition where_ (st clause : stmt) : stmt :=
  match st, clause with
  | Some p, Some q => Some (fun lower a => p lower a && q lower a)
  | _, _ => None
  end.

Definition nome_ilike (pattern : string) : stmt :=
  option_map (fun p lower a => Text.like_match lower p (Text.chars (nome a)))
    (Text.like_tokens (Text.chars pattern)).

Definition cpf_eq (v : string) : stmt := Some (fun _ a => String.eqb (cpf a) v).

(** [(await db_session.execute(query_stmt)).scalars().all()].  Of the
    errors an engine can answer a [SELECT] with, the model has the one the
    shape of the statement can cause: a pattern ending in a lone escape. *)
Definition scalars_all (st : stmt) : M (list AtletaModel) :=
  fun s =>
    match st with
    | Some p => (Return (filter (p (db_lower s)) (view s)), s)
    | None =>
        (Raise (OtherException "LIKE pattern must not end with escape character"), s)
    end.

(** [db_session.add(atleta_model)] *)
Definition add (a : AtletaModel) : M unit :=
  fun s =>
    (Return tt, set_pending (Some (view s ++ [set_pk_id (next_pk (view s)) a])%list) s).

(** Attribute assignment on a row the session tracks: the object and the
    session's copy are one. *)
Definition tracked_setattr (a : AtletaModel) (kv : item) : M AtletaModel :=
  fun s =>
    let a' := setattr a kv in
    (Return a',
     set_pending
       (Some (map (fun r => if pk_id r =? pk_id a then a' else r) (view s))) s).

(** [await db_session.delete(atleta)] *)
Definition session_delete (a : AtletaModel) : M unit :=
  fun s =>
    (Return tt,
     set_pending (Some (filter (fun r => negb (pk_id r =? pk_id a)) (view s))) s).

(** [await db_session.commit()].  When the engine refuses the flush the
    exception is raised with the written rows still held by the session:
    they are what [rollback] discards, and the session is of no other use
    until then. *)
Definition commit (env : Env) : M unit :=
  fun s =>
    match flush env (view s) with
    | Accepted => (Return tt, set_pending None (set_atletas (view s) s))
    | Integrity c => (Raise (IntegrityError c), s)
    | Failed message => (Raise (OtherException message), s)
    end.

(** [await db_session.rollback()] *)
Definition rollback : M unit := fun s => (Return tt, set_pending None s).

(** [await db_session.refresh(atleta)] *)
Definition refresh (a : AtletaModel) : M AtletaModel :=
  fun s =>
    match find (fun r => pk_id r =? pk_id a) (view s) with
    | Some r => (Return r, s)
    | None => (Raise (OtherException "Could not refresh instance"), s)
    end.

(* ================================================================= *)
(** ** The handlers *)

Definition post_status_code : Z := HTTP_201_CREATED.
Definition query_status_code : Z := HTTP_200_OK.
Definition get_status_code : Z := HTTP_200_OK.
Definition patch_status_code : Z := HTTP_200_OK.
Definition delete_status_code : Z := HTTP_204_NO_CONTENT.

(** The status of the response: the route's own on return, the exception's
    when the handler raises an [HTTPException], and the framework's 500 for
    an exception the handler lets through. *)
Definition response_status {A : Type} (route_status : Z) (r : outcome A) : Z :=
  match r with
  | Return _ => route_status
  | Raise (HTTPException code _) => code
  | Raise _ => HTTP_500_INTERNAL_SERVER_ERROR
  end.

Definition post (env : Env) (atleta_in : AtletaIn) : M AtletaOut :=
  let categoria_nome := categoria_in_nome (in_categoria atleta_in) in
  let centro_treinamento_nome := centro_in_nome (in_centro_treinamento atleta_in) in
  categoria <- scalars_first categorias
                 (fun c => String.eqb (cat_nome c) categoria_nome) ;;
  match categoria with
  | None =>
      raise (HTTPException HTTP_400_BAD_REQUEST
               ("A categoria " ++ categoria_nome ++ " não foi encontrada."))
  | Some categoria =>
      centro_treinamento <- scalars_first centros_treinamento
                              (fun c => String.eqb (ct_nome c) centro_treinamento_nome) ;;
      match centro_treinamento with
      | None =>
          raise (HTTPException HTTP_400_BAD_REQUEST
                   ("O centro de treinamento " ++ centro_treinamento_nome
                      ++ " não foi encontrado."))
      | Some centro_treinamento =>
          try_except
            (let atleta_out := mk_AtletaOut (uuid4 env) (utcnow env) atleta_in in
             let atleta_model :=
               mk_AtletaModel atleta_out (cat_pk_id categoria)
                 (ct_pk_id centro_treinamento) in
             add atleta_model ;;;
             commit env ;;;
             ret atleta_out)
            (fun e =>
               match e with
               | IntegrityError _ =>
                   rollback ;;;
                   raise (HTTPException HTTP_409_CONFLICT
                            ("Já existe um atleta cadastrado com o cpf: "
                               ++ in_cpf atleta_in))
               | _ =>
                   rollback ;;;
                   raise (HTTPException HTTP_500_INTERNAL_SERVER_ERROR
                            ("Ocorreu um erro ao inserir os dados no banco: "
                               ++ exn_str e))
               end)
      end
  end.

(** [fastapi_pagination]: the window the request asks for and the page sent
    back. *)
Record LimitOffsetParams : Type := { limit : nat; offset : nat }.

Record LimitOffsetPage (R : Type) : Type := {
  items : list R;
  total : nat;
  page_limit : nat;
  page_offset : nat
}.
Arguments items {R} _.
Arguments total {R} _.
Arguments page_limit {R} _.
Arguments page_offset {R} _.

(** [paginate(sequence)]: [sequence[offset : offset + limit]] with the length
    of the whole sequence as [total]. *)
Definition paginate {R : Type} (params : LimitOffsetParams) (sequence : list R)
  : LimitOffsetPage R :=
  {| items := firstn (limit params) (skipn (offset params) sequence);
     total := List.length sequence;
     page_limit := limit params;
     page_offset := offset params |}.

(** [if nome:] on an [Optional[str]]: [None] and the empty string are falsy. *)
Definition supplied (o : option string) : bool :=
  match o with
  | Some v => Text.truthy v
  | None => false
  end.

Section Listing.

(** The summary schema [AtletaResumoOut] and its [model_validate] are not
    in the sources at hand; the listing is stated for any summary type and
    any way of reading a summary off a row and the tables it refers to. *)
Variable AtletaResumoOut : Type.
Variable model_validate : Session -> AtletaModel -> AtletaResumoOut.

Definition query (params : LimitOffsetParams) (nome cpf : option string)
  : M (LimitOffsetPage AtletaResumoOut) :=
  let query_stmt := select_AtletaModel in
  let query_stmt :=
    match nome with
    | Some v =>
        if Text.truthy v
        then where_ query_stmt (nome_ilike ("%" ++ v ++ "%"))
        else query_stmt
    | None => query_stmt
    end in
  let query_stmt :=
    match cpf with
    | Some v => if Text.truthy v then where_ query_stmt (cpf_eq v) else query_stmt
    | None => query_stmt
    end in
  atletas <- scalars_all query_stmt ;;
  fun s =>
    let atletas_resumo := map (model_validate s) atletas in
    (Return (paginate params atletas_resumo), s).

End Listing.

Definition not_found {A : Type} (id_ : UUID) : M A :=
  raise (HTTPException HTTP_404_NOT_FOUND
           ("Atleta não encontrado no id: " ++ uuid_str id_)).

Definition get (id_ : UUID) : M AtletaModel :=
  atleta <- scalars_first view (fun a => N.eqb (id a) id_) ;;
  match atleta with
  | None => not_found id_
  | Some atleta => ret atleta
  end.

(** [for key, value in atleta_update.items(): setattr(atleta, key, value)] *)
Fixpoint setattr_items (atleta_update : list item) (atleta : AtletaModel)
  : M AtletaModel :=
  match atleta_update with
  | [] => ret atleta
  | kv :: rest => atleta' <- tracked_setattr atleta kv ;; setattr_items rest atleta'
  end.

Definition patch (env : Env) (id_ : UUID) (atleta_up : AtletaUpdate) : M AtletaModel :=
  atleta <- scalars_first view (fun a => N.eqb (id a) id_) ;;
  match atleta with
  | None => not_found id_
  | Some atleta =>
      let atleta_update := model_dump_exclude_unset atleta_up in
      atleta <- setattr_items atleta_update atleta ;;
      commit env ;;;
      atleta <- refresh atleta ;;
      ret atleta
  end.

Definition delete (env : Env) (id_ : UUID) : M unit :=
  atleta <- scalars_first view (fun a => N.eqb (id a) id_) ;;
  match atleta with
  | None => not_found id_
  | Some atleta =>
      session_delete atleta ;;;
      commit env
  end.

(* ================================================================= *)
(** ** A small database to run the handlers on *)

Module Sample.

Definition scale : CategoriaModel := {| cat_pk_id := 1; cat_nome := "Scale" |}.
Definition rx : CategoriaModel := {| cat_pk_id := 2; cat_nome := "RX" |}.
Definition ct_king : CentroTreinamentoModel := {| ct_pk_id := 7; ct_nome := "CT King" |}.

Definition ana : AtletaModel :=
  {| pk_id := 1; id := 10%N; created_at := 1000; nome := "Mariana Souza";
     cpf := "11111111111"; peso := 62 # 1; altura := 165 # 100; sexo := "F";
     categoria_id := 1; centro_treinamento_id := 7 |}.

Definition bob : AtletaModel :=
  {| pk_id := 2; id := 20%N; created_at := 2000; nome := "Bob";
     cpf := "22222222222"; peso := 90 # 1; altura := 180 # 100; sexo := "M";
     categoria_id := 2; centro_treinamento_id := 7 |}.

Definition db : Session :=
  {| categorias := [scale; rx]; centros_treinamento := [ct_king];
     atletas := [ana; bob]; pending := None; db_lower := Text.lower_ascii |}.

Definition env : Env := {| uuid4 := 30%N; utcnow := 3000; flush_fault := None |}.

Definition joao_in : AtletaIn :=
  {| in_nome := "Joao"; in_cpf := "33333333333"; in_peso := 75 # 1;
     in_altura := 170 # 100; in_sexo := "M";
     in_categoria := {| categoria_in_nome := "Scale" |};
     in_centro_treinamento := {| centro_in_nome := "CT King" |} |}.

Definition env2 : Env := {| uuid4 := 40%N; utcnow := 4000; flush_fault := None |}.

Definition env_down : Env :=
  {| uuid4 := 30%N; utcnow := 3000; flush_fault := Some (failure "connection lost") |}.

Definition env_fk : Env :=
  {| uuid4 := 30%N; utcnow := 3000; flush_fault := Some (reject "atletas_id_key") |}.

Definition ana_again_in : AtletaIn :=
  {| in_nome := "Ana Lima"; in_cpf := "11111111111"; in_peso := 70 # 1;
     in_altura := 172 # 100; in_sexo := "F";
     in_categoria := {| categoria_in_nome := "Scale" |};
     in_centro_treinamento := {| centro_in_nome := "CT King" |} |}.

Definition orphan_in : AtletaIn :=
  {| in_nome := "Rita"; in_cpf := "44444444444"; in_peso := 58 # 1;
     in_altura := 160 # 100; in_sexo := "F";
     in_categoria := {| categoria_in_nome := "Elite" |};
     in_centro_treinamento := {| centro_in_nome := "CT King" |} |}.

Definition only_peso : AtletaUpdate :=
  {| up_nome := None; up_cpf := None; up_peso := Some (80 # 1);
     up_altura := None; up_sexo := None |}.

Definition window : LimitOffsetParams := {| limit := 50; offset := 0 |}.

Definition resumo (_ : Session) (a : AtletaModel) : string := nome a.

End Sample.

(* ================================================================= *)
(** ** Vocabulary of the statements *)

(** The two lookups of [post], as predicates on the session. *)
Definition categoria_resolves (s : Session) (name : string) (c : CategoriaModel) : Prop :=
  find (fun c => String.eqb (cat_nome c) name) (categorias s) = Some c.

Definition centro_resolves (s : Session) (name : string) (c : CentroTreinamentoModel) : Prop :=
  find (fun c => String.eqb (ct_nome c) name) (centros_treinamento s) = Some c.

Definition categoria_exists (s : Session) (name : string) : Prop :=
  exists c, In c (categorias s) /\ cat_nome c = name.

Definition centro_exists (s : Session) (name : string) : Prop :=
  exists c, In c (centros_treinamento s) /\ ct_nome c = name.

Definition atleta_exists (s : Session) (id_ : UUID) : Prop :=
  exists a, In a (view s) /\ id a = id_.

(** The row [post] hands to the session, with the key the database gives it. *)
Definition inserted_row (env : Env) (atleta_in : AtletaIn) (categoria : CategoriaModel)
    (centro_treinamento : CentroTreinamentoModel) (s : Session) : AtletaModel :=
  set_pk_id (next_pk (view s))
    (mk_AtletaModel (mk_AtletaOut (uuid4 env) (utcnow env) atleta_in)
       (cat_pk_id categoria) (ct_pk_id centro_treinamento)).

(** The session once a transaction over [rows] is committed. *)
Definition committed (rows : list AtletaModel) (s : Session) : Session :=
  set_pending None (set_atletas rows s).

(** A handler failed with the given kind, surfaced as the given status. *)
Definition fails {A : Type} (r : outcome A) (k : kind) (code : Z) (detail : string) : Prop :=
  r = Raise (HTTPException code detail)
  /\ kind_of (HTTPException code detail) = Some k.

(** The messages of the two [except] branches of [post]. *)
Definition conflict_detail (atleta_in : AtletaIn) : string :=
  "Já existe um atleta cadastrado com o cpf: " ++ in_cpf atleta_in.

Definition insert_error_detail (cause : string) : string :=
  "Ocorreu um erro ao inserir os dados no banco: " ++ cause.

(** The rows carrying a given CPF. *)
Definition with_cpf (v : string) (rows : list AtletaModel) : list AtletaModel :=
  filter (fun a => String.eqb (cpf a) v) rows.

(** The keys a database keeps apart: primary keys, public identifiers, CPFs. *)
Record consistent (rows : list AtletaModel) : Prop := {
  pk_unique : NoDup (map pk_id rows);
  id_unique : NoDup (map id rows);
  cpf_unique : NoDup (map cpf rows)
}.

(** The row [patch] leaves behind: a field of the request that is set takes
    its value, every other one keeps the row's. *)
Definition or_keep {A : Type} (o : option A) (old : A) : A :=
  match o with
  | Some v => v
  | None => old
  end.

Definition updated (u : AtletaUpdate) (a : AtletaModel) : AtletaModel :=
  {| pk_id := pk_id a; id := id a; created_at := created_at a;
     nome := or_keep (up_nome u) (nome a); cpf := or_keep (up_cpf u) (cpf a);
     peso := or_keep (up_peso u) (peso a); altura := or_keep (up_altura u) (altura a);
     sexo := or_keep (up_sexo u) (sexo a);
     categoria_id := categoria_id a;
     centro_treinamento_id := centro_treinamento_id a |}.

Definition replace_row (a' : AtletaModel) (rows : list AtletaModel) : list AtletaModel :=
  map (fun r => if pk_id r =? pk_id a' then a' else r) rows.

Definition without_row (a : AtletaModel) (rows : list AtletaModel) : list AtletaModel :=
  filter (fun r => negb (pk_id r =? pk_id a)) rows.

(** The listing as the design document words it: a name filter keeps the
    rows whose name contains it, characters compared after the database's
    case folding; a CPF filter keeps the rows whose CPF equals it. *)
Definition name_contains (lower : N -> N) (nome_filter : option string)
    (a : AtletaModel) : bool :=
  match nome_filter with
  | Some v => Text.icontains lower (Text.chars v) (Text.chars (nome a))
  | None => true
  end.

Definition cpf_equals (cpf_filter : option string) (a : AtletaModel) : bool :=
  match cpf_filter with
  | Some v => String.eqb (cpf a) v
  | None => true
  end.

(** The same, with the handler's test of the CPF filter: an empty one is no
    filter. *)
Definition cpf_equals_if_truthy (cpf_filter : option string) (a : AtletaModel) : bool :=
  if supplied cpf_filter then cpf_equals cpf_filter a else true.

(** The pattern of a filter read character by character. *)
Definition lits (v : string) : list Text.tok := map Text.Lit (Text.chars v).

(** [sub] occurs in [s], characters compared after folding. *)
Definition contains_ci (lower : N -> N) (sub s : string) : Prop :=
  exists pre mid post,
    Text.chars s = (pre ++ mid ++ post)%list
    /\ map lower mid = map lower (Text.chars sub).

(** What the listing would answer if every filter that is supplied, empty
    or not, with pattern characters or not, were applied as the design
    document words it. *)
Definition listed_as_worded {R : Type} (model_validate : Session -> AtletaModel -> R)
    (params : LimitOffsetParams) (nome_filter cpf_filter : option string)
    (s : Session) : outcome (LimitOffsetPage R) * Session :=
  (Return
     (paginate params
        (map (model_validate s)
           (filter (fun a => name_contains (db_lower s) nome_filter a
                             && cpf_equals cpf_filter a)
              (view s)))), s).

(* ================================================================= *)
(** ** Vocabulary of the further statements *)

(** A filter without the escape character: [%] and [_] in it are read as
    wildcards, every other character as itself. *)
Definition no_escape (v : string) : bool :=
  forallb (fun c => negb (N.eqb c Text.backslash)) (Text.chars v).

Definition toks (v : string) : list Text.tok := map Text.tok_of (Text.chars v).

(** The update request that sets no field. *)
Definition empty_update : AtletaUpdate :=
  {| up_nome := None; up_cpf := None; up_peso := None; up_altura := None;
     up_sexo := None |}.

(** The statuses [post] can answer with once both references have
    resolved. *)
Definition persistence_statuses : list Z :=
  [HTTP_201_CREATED; HTTP_409_CONFLICT; HTTP_500_INTERNAL_SERVER_ERROR].

(** An exception of the engine, as opposed to one the handler raised. *)
Definition engine_exception (e : exn) : Prop :=
  match e with
  | HTTPException _ _ => False
  | IntegrityError _ | OtherException _ => True
  end.

Module Sample2.

Definition env_clash : Env :=
  {| uuid4 := 50%N; utcnow := 5000; flush_fault := None |}.

Definition steal_cpf : AtletaUpdate :=
  {| up_nome := None; up_cpf := Some "22222222222"; up_peso := None;
     up_altura := None; up_sexo := None |}.

Definition narrow : LimitOffsetParams := {| limit := 1; offset := 1 |}.

End Sample2.

(* ================================================================= *)
(** ** Runs of the handlers on the sample database *)

Example status_str_409 : status_str 409 = "409".
Proof. reflexivity. Qed.

Example uuid_str_ex :
  uuid_str 255%N = "00000000-0000-0000-0000-0000000000ff".
Proof. reflexivity. Qed.

Example lower_A : Text.lower_ascii 65 = 97%N.
Proof. reflexivity. Qed.

Example chars_joao : Text.chars "João" = [74; 111; 227; 111]%N.
Proof. reflexivity. Qed.

Example ilike_ana : Text.ilike Text.lower_ascii "Mariana Souza" "%ANA%" = Some true.
Proof. reflexivity. Qed.

Example ilike_underscore : Text.ilike Text.lower_ascii "Bob" "%_%" = Some true.
Proof. reflexivity. Qed.

Example ilike_one_character :
  Text.ilike Text.lower_ascii "Zé" "%Z__%" = Some false
  /\ Text.ilike Text.lower_ascii "Zé" "%Z_%" = Some true.
Proof. split; reflexivity. Qed.

Example ilike_by_locale :
  Text.ilike Text.lower_ascii "João" "%JOÃO%" = Some false
  /\ Text.ilike Text.lower_latin1 "João" "%JOÃO%" = Some true.
Proof. split; reflexivity. Qed.

Example ilike_dangling : Text.ilike Text.lower_ascii "Bob" "%\" = None.
Proof. reflexivity. Qed.

Example post_joao :
  fst (post Sample.env Sample.joao_in Sample.db)
  = Return (mk_AtletaOut 30%N 3000 Sample.joao_in).
Proof. reflexivity. Qed.

Example post_joao_rows :
  map pk_id (atletas (snd (post Sample.env Sample.joao_in Sample.db))) = [1; 2; 3].
Proof. reflexivity. Qed.

Example query_ana :
  fst (query string Sample.resumo Sample.window (Some "ANA") None Sample.db)
  = Return (paginate Sample.window ["Mariana Souza"]).
Proof. reflexivity. Qed.

Example delete_ana_rows :
  map nome (atletas (snd (delete Sample.env 10%N Sample.db))) = ["Bob"].
Proof. reflexivity. Qed.

Example patch_peso :
  match fst (patch Sample.env 10%N Sample.only_peso Sample.db) with
  | Return a => (nome a, peso a) = ("Mariana Souza", 80 # 1)
  | Raise _ => False
  end.
Proof. reflexivity. Qed.

(* ================================================================= *)
(** ** Lists and keys *)

Lemma find_absent {A : Type} (p : A -> bool) (l : list A) :
  (forall x, In x l -> p x = false) -> find p l = None.
Proof.
  induction l as [|x l IH]; intros H; simpl.
  - reflexivity.
  - rewrite (H x (or_introl eq_refl)). apply IH. intros y Hy. apply H. now right.
Qed.

Lemma find_present {A : Type} (p : A -> bool) (l : list A) (x : A) :
  In x l -> p x = true -> exists y, find p l = Some y.
Proof.
  induction l as [|z l IH]; intros Hin Hp; simpl.
  - destruct Hin.
  - destruct (p z) eqn:Hz.
    + now exists z.
    + destruct Hin as [->|Hin]; [congruence | now apply IH].
Qed.

Lemma existsb_eqb_In (x : string) (l : list string) :
  existsb (String.eqb x) l = true <-> In x l.
Proof.
  rewrite existsb_exists. split.
  - intros [y [Hy Heq]]. apply String.eqb_eq in Heq. now subst.
  - intros H. exists x. split; [assumption | apply String.eqb_refl].
Qed.

Lemma distinct_NoDup (l : list string) : distinct l = true <-> NoDup l.
Proof.
  induction l as [|x l IH]; simpl.
  - split; [constructor | reflexivity].
  - rewrite andb_true_iff, negb_true_iff, IH. split.
    + intros [Hx Hl]. constructor; [|assumption].
      intros Hin. apply existsb_eqb_In in Hin. congruence.
    + intros H. inversion H as [|? ? Hx Hl]; subst. split; [|assumption].
      destruct (existsb (String.eqb x) l) eqn:E; [|reflexivity].
      apply existsb_eqb_In in E. contradiction.
Qed.

Lemma with_cpf_absent (v : string) (rows : list AtletaModel) :
  ~ In v (map cpf rows) -> with_cpf v rows = [].
Proof.
  induction rows as [|a rows IH]; simpl; intros H.
  - reflexivity.
  - destruct (String.eqb (cpf a) v) eqn:E.
    + apply String.eqb_eq in E. exfalso. apply H. now left.
    + apply IH. intros Hin. apply H. now right.
Qed.

Lemma with_cpf_at_most_one (v : string) (rows : list AtletaModel) :
  NoDup (map cpf rows) -> (List.length (with_cpf v rows) <= 1)%nat.
Proof.
  induction rows as [|a rows IH]; simpl; intros H.
  - lia.
  - inversion H as [|? ? Hx Hl]; subst.
    destruct (String.eqb (cpf a) v) eqn:E.
    + apply String.eqb_eq in E. subst v.
      fold (with_cpf (cpf a) rows). rewrite (with_cpf_absent _ _ Hx). simpl. lia.
    + now apply IH.
Qed.

Lemma with_cpf_present (v : string) (rows : list AtletaModel) :
  In v (map cpf rows) -> (1 <= List.length (with_cpf v rows))%nat.
Proof.
  induction rows as [|a rows IH]; simpl; intros H.
  - destruct H.
  - destruct (String.eqb (cpf a) v) eqn:E.
    + simpl. lia.
    + destruct H as [H|H]; [|now apply IH].
      subst v. rewrite String.eqb_refl in E. discriminate.
Qed.

Lemma unique_cpf_clash (rows : list AtletaModel) (r : AtletaModel) :
  In (cpf r) (map cpf rows) -> unique_cpf (rows ++ [r]) = false.
Proof.
  intros Hin. unfold unique_cpf.
  destruct (distinct (map cpf (rows ++ [r]))) eqn:E; [|reflexivity].
  apply distinct_NoDup in E. rewrite map_app in E. simpl in E.
  apply NoDup_remove_2 in E. rewrite app_nil_r in E. contradiction.
Qed.

(* ================================================================= *)
(** ** [post] *)

Lemma categoria_lookup (s : Session) (name : string) :
  (~ categoria_exists s name ->
   find (fun c => String.eqb (cat_nome c) name) (categorias s) = None)
  /\ (categoria_exists s name -> exists c, categoria_resolves s name c).
Proof.
  split.
  - intros H. apply find_absent. intros c Hc.
    destruct (String.eqb (cat_nome c) name) eqn:E; [|reflexivity].
    apply String.eqb_eq in E. exfalso. apply H. now exists c.
  - intros [c [Hc Hn]]. unfold categoria_resolves.
    apply (find_present _ _ c Hc). subst name. apply String.eqb_refl.
Qed.

Lemma centro_lookup (s : Session) (name : string) :
  (~ centro_exists s name ->
   find (fun c => String.eqb (ct_nome c) name) (centros_treinamento s) = None)
  /\ (centro_exists s name -> exists c, centro_resolves s name c).
Proof.
  split.
  - intros H. apply find_absent. intros c Hc.
    destruct (String.eqb (ct_nome c) name) eqn:E; [|reflexivity].
    apply String.eqb_eq in E. exfalso. apply H. now exists c.
  - intros [c [Hc Hn]]. unfold centro_resolves.
    apply (find_present _ _ c Hc). subst name. apply String.eqb_refl.
Qed.

(** Once both references resolve, [post] is decided by the persistence
    step alone. *)
Lemma post_run (env : Env) (atleta_in : AtletaIn) (s : Session)
    (categoria : CategoriaModel) (centro : CentroTreinamentoModel) :
  categoria_resolves s (categoria_in_nome (in_categoria atleta_in)) categoria ->
  centro_resolves s (centro_in_nome (in_centro_treinamento atleta_in)) centro ->
  post env atleta_in s =
  match flush env (view s ++ [inserted_row env atleta_in categoria centro s]) with
  | Accepted =>
      (Return (mk_AtletaOut (uuid4 env) (utcnow env) atleta_in),
       committed (view s ++ [inserted_row env atleta_in categoria centro s]) s)
  | Integrity _ =>
      (Raise (HTTPException HTTP_409_CONFLICT (conflict_detail atleta_in)),
       set_pending None s)
  | Failed cause =>
      (Raise (HTTPException HTTP_500_INTERNAL_SERVER_ERROR (insert_error_detail cause)),
       set_pending None s)
  end.
Proof.
  intros Hc Ht. unfold categoria_resolves in Hc. unfold centro_resolves in Ht.
  unfold post, bind, scalars_first. rewrite Hc, Ht.
  unfold try_except, bind, add, commit, inserted_row. cbn [view pending set_pending].
  destruct (flush env _); reflexivity.
Qed.

Lemma set_pending_idle (s : Session) : pending s = None -> set_pending None s = s.
Proof. destruct s as [c t a p]. simpl. intros ->. reflexivity. Qed.

(** Every run of [post]: a missing category, a missing training centre, or
    the outcome of the persistence step. *)
Lemma post_cases (env : Env) (atleta_in : AtletaIn) (s : Session) :
  (~ categoria_exists s (categoria_in_nome (in_categoria atleta_in))
   /\ post env atleta_in s =
      (Raise (HTTPException HTTP_400_BAD_REQUEST
                ("A categoria " ++ categoria_in_nome (in_categoria atleta_in)
                   ++ " não foi encontrada.")), s))
  \/ (categoria_exists s (categoria_in_nome (in_categoria atleta_in))
      /\ ~ centro_exists s (centro_in_nome (in_centro_treinamento atleta_in))
      /\ post env atleta_in s =
         (Raise (HTTPException HTTP_400_BAD_REQUEST
                   ("O centro de treinamento "
                      ++ centro_in_nome (in_centro_treinamento atleta_in)
                      ++ " não foi encontrado.")), s))
  \/ (exists categoria centro,
        categoria_resolves s (categoria_in_nome (in_categoria atleta_in)) categoria
        /\ centro_resolves s (centro_in_nome (in_centro_treinamento atleta_in)) centro).
Proof.
  destruct (find (fun c => String.eqb (cat_nome c)
                             (categoria_in_nome (in_categoria atleta_in)))
              (categorias s)) as [c|] eqn:Hc.
  - assert (Hce : categoria_exists s (categoria_in_nome (in_categoria atleta_in))).
    { apply find_some in Hc. destruct Hc as [Hin Hn]. apply String.eqb_eq in Hn.
      now exists c. }
    destruct (find (fun c => String.eqb (ct_nome c)
                               (centro_in_nome (in_centro_treinamento atleta_in)))
                (centros_treinamento s)) as [t|] eqn:Ht.
    + right. right. now exists c, t.
    + right. left. split; [assumption|]. split.
      * intros [t [Hin Hn]]. apply (find_none _ _ Ht) in Hin.
        rewrite Hn, String.eqb_refl in Hin. discriminate.
      * unfold post, bind, scalars_first. rewrite Hc, Ht. reflexivity.
  - left. split.
    + intros [c [Hin Hn]]. apply (find_none _ _ Hc) in Hin.
      rewrite Hn, String.eqb_refl in Hin. discriminate.
    + unfold post, bind, scalars_first. rewrite Hc. reflexivity.
Qed.

(** C2. A create request whose category name or training-centre name
    matches no record fails with [ReferenceNotFound], status 400; the detail
    names the category when it is the one missing and the training centre
    otherwise; the session, and with it every table, is left as it was, so
    no athlete row is persisted. *)
Theorem post_reference_not_found (env : Env) (atleta_in : AtletaIn) (s : Session) :
  ~ categoria_exists s (categoria_in_nome (in_categoria atleta_in))
  \/ ~ centro_exists s (centro_in_nome (in_centro_treinamento atleta_in)) ->
  exists detail,
    post env atleta_in s = (Raise (HTTPException HTTP_400_BAD_REQUEST detail), s)
    /\ fails (fst (post env atleta_in s)) ReferenceNotFound 400 detail
    /\ response_status post_status_code (fst (post env atleta_in s)) = 400
    /\ atletas (snd (post env atleta_in s)) = atletas s
    /\ pending (snd (post env atleta_in s)) = pending s
    /\ (~ categoria_exists s (categoria_in_nome (in_categoria atleta_in)) ->
        detail = "A categoria " ++ categoria_in_nome (in_categoria atleta_in)
                   ++ " não foi encontrada.")
    /\ (categoria_exists s (categoria_in_nome (in_categoria atleta_in)) ->
        detail = "O centro de treinamento "
                   ++ centro_in_nome (in_centro_treinamento atleta_in)
                   ++ " não foi encontrado.").
Proof.
  intros Hmiss.
  destruct (post_cases env atleta_in s) as [[Hc E]|[[Hc [Ht E]]|[c [t [Hc Ht]]]]].
  - eexists. split; [exact E|]. rewrite E. simpl. unfold fails.
    repeat split; try reflexivity. intros Hce. contradiction.
  - eexists. split; [exact E|]. rewrite E. simpl. unfold fails.
    repeat split; try reflexivity. intros Hce. contradiction.
  - exfalso. destruct Hmiss as [H|H]; apply H.
    + apply find_some in Hc. destruct Hc as [Hin Hn]. apply String.eqb_eq in Hn.
      now exists c.
    + apply find_some in Ht. destruct Ht as [Hin Hn]. apply String.eqb_eq in Hn.
      now exists t.
Qed.

Lemma post_reference_not_found_witness :
  exists detail,
    post Sample.env Sample.orphan_in Sample.db
    = (Raise (HTTPException HTTP_400_BAD_REQUEST detail), Sample.db)
    /\ detail = "A categoria Elite não foi encontrada.".
Proof.
  assert (Hmiss : ~ categoria_exists Sample.db
                      (categoria_in_nome (in_categoria Sample.orphan_in))).
  { intros [c [Hin Hn]]. simpl in Hin.
    destruct Hin as [<-|[<-|[]]]; discriminate Hn. }
  destruct (post_reference_not_found Sample.env Sample.orphan_in Sample.db
              (or_introl Hmiss)) as [detail [E [_ [_ [_ [_ [Hd _]]]]]]].
  exists detail. split; [exact E | exact (Hd Hmiss)].
Defined.

(** C3. When both references resolve and the persistence step accepts the
    row, [post] returns, with status 201, the output representation whose
    [id] is the value [uuid4()] gave and whose [created_at] is the clock's,
    every input field carried over; the athlete table gains one row with the
    same fields linked to the primary keys of the resolved category and
    training centre, and the transaction is committed. *)
Theorem post_created (env : Env) (atleta_in : AtletaIn) (s : Session)
    (categoria : CategoriaModel) (centro : CentroTreinamentoModel) :
  categoria_resolves s (categoria_in_nome (in_categoria atleta_in)) categoria ->
  centro_resolves s (centro_in_nome (in_centro_treinamento atleta_in)) centro ->
  flush env (view s ++ [inserted_row env atleta_in categoria centro s]) = Accepted ->
  exists out row s',
    post env atleta_in s = (Return out, s')
    /\ response_status post_status_code (fst (post env atleta_in s)) = 201
    /\ (out_id out = uuid4 env /\ out_created_at out = utcnow env
        /\ out_nome out = in_nome atleta_in /\ out_cpf out = in_cpf atleta_in
        /\ out_peso out = in_peso atleta_in /\ out_altura out = in_altura atleta_in
        /\ out_sexo out = in_sexo atleta_in
        /\ out_categoria out = in_categoria atleta_in
        /\ out_centro_treinamento out = in_centro_treinamento atleta_in)
    /\ (atletas s' = (view s ++ [row])%list /\ pending s' = None
        /\ categorias s' = categorias s
        /\ centros_treinamento s' = centros_treinamento s)
    /\ (categoria_id row = cat_pk_id categoria
        /\ centro_treinamento_id row = ct_pk_id centro
        /\ id row = out_id out /\ created_at row = out_created_at out
        /\ nome row = in_nome atleta_in /\ cpf row = in_cpf atleta_in
        /\ peso row = in_peso atleta_in /\ altura row = in_altura atleta_in
        /\ sexo row = in_sexo atleta_in).
Proof.
  intros Hc Ht Hf.
  exists (mk_AtletaOut (uuid4 env) (utcnow env) atleta_in),
    (inserted_row env atleta_in categoria centro s),
    (committed (view s ++ [inserted_row env atleta_in categoria centro s]) s).
  rewrite (post_run env atleta_in s categoria centro Hc Ht), Hf.
  simpl. repeat split; reflexivity.
Qed.

Lemma post_created_witness :
  exists out row s',
    post Sample.env Sample.joao_in Sample.db = (Return out, s')
    /\ out_id out = 30%N
    /\ atletas s' = [Sample.ana; Sample.bob; row]
    /\ (categoria_id row, centro_treinamento_id row) = (1, 7).
Proof.
  destruct (post_created Sample.env Sample.joao_in Sample.db Sample.scale Sample.ct_king
              eq_refl eq_refl eq_refl)
    as [out [row [s' [E [_ [[Hid _] [[Hrows _] [Hcat [Hct _]]]]]]]]].
  exists out, row, s'. repeat split; try assumption.
  now rewrite Hcat, Hct.
Defined.

(** What a successful [post] leaves: the request's CPF is in the table and
    CPFs are pairwise different. *)
Lemma post_return_inv (env : Env) (atleta_in : AtletaIn) (s s' : Session)
    (out : AtletaOut) :
  post env atleta_in s = (Return out, s') ->
  pending s' = None
  /\ In (in_cpf atleta_in) (map cpf (atletas s'))
  /\ NoDup (map cpf (atletas s')).
Proof.
  intros E.
  destruct (post_cases env atleta_in s) as [[_ E']|[[_ [_ E']]|[c [t [Hc Ht]]]]];
    try (rewrite E' in E; discriminate E).
  rewrite (post_run env atleta_in s c t Hc Ht) in E.
  destruct (flush env _) eqn:Hf; try discriminate E.
  injection E as _ <-. simpl. split; [reflexivity|].
  unfold flush in Hf. destruct (flush_fault env) as [[?|?]|]; try discriminate Hf.
  destruct (unique_cpf _) eqn:Hu; try discriminate Hf.
  split.
  - rewrite map_app. apply in_or_app. right. left. reflexivity.
  - apply distinct_NoDup. exact Hu.
Qed.

(** A failing [post] leaves the athlete table as it was and no transaction
    in flight, whatever made it fail. *)
Lemma post_raise_inv (env : Env) (atleta_in : AtletaIn) (s s' : Session) (e : exn) :
  pending s = None ->
  post env atleta_in s = (Raise e, s') -> s' = s.
Proof.
  intros Hidle E.
  destruct (post_cases env atleta_in s) as [[_ E']|[[_ [_ E']]|[c [t [Hc Ht]]]]];
    try (rewrite E' in E; now injection E as _ <-).
  rewrite (post_run env atleta_in s c t Hc Ht) in E.
  destruct (flush env _); try discriminate E;
    injection E as _ <-; now apply set_pending_idle.
Qed.

(** C1. When the persistence step of a create request reports the CPF
    constraint violated, [post] rolls the transaction back (nothing is left
    in flight, the tables are as before) and fails with [DuplicateKey],
    status 409, the detail naming the request's CPF.  And when a create
    succeeds (201) and a second create with the same CPF fails, the table
    then holds exactly one row with that CPF; the second fails with that 409
    whenever its references resolve and the engine reports nothing else. *)
Theorem post_duplicate_cpf :
  (forall (env : Env) (atleta_in : AtletaIn) (s : Session)
          (categoria : CategoriaModel) (centro : CentroTreinamentoModel),
      categoria_resolves s (categoria_in_nome (in_categoria atleta_in)) categoria ->
      centro_resolves s (centro_in_nome (in_centro_treinamento atleta_in)) centro ->
      flush env (view s ++ [inserted_row env atleta_in categoria centro s])
      = Integrity uq_cpf ->
      exists s',
        post env atleta_in s
        = (Raise (HTTPException HTTP_409_CONFLICT
                    ("Já existe um atleta cadastrado com o cpf: " ++ in_cpf atleta_in)),
           s')
        /\ fails (fst (post env atleta_in s)) DuplicateKey 409
             ("Já existe um atleta cadastrado com o cpf: " ++ in_cpf atleta_in)
        /\ response_status post_status_code (fst (post env atleta_in s)) = 409
        /\ pending s' = None /\ atletas s' = atletas s
        /\ categorias s' = categorias s
        /\ centros_treinamento s' = centros_treinamento s)
  /\ (forall (env1 env2 : Env) (in1 in2 : AtletaIn) (s0 s1 s2 : Session)
             (out1 : AtletaOut) (e : exn),
         post env1 in1 s0 = (Return out1, s1) ->
         in_cpf in2 = in_cpf in1 ->
         post env2 in2 s1 = (Raise e, s2) ->
         response_status post_status_code (fst (post env1 in1 s0)) = 201
         /\ List.length (with_cpf (in_cpf in1) (atletas s2)) = 1%nat
         /\ (categoria_exists s1 (categoria_in_nome (in_categoria in2)) ->
             centro_exists s1 (centro_in_nome (in_centro_treinamento in2)) ->
             flush_fault env2 = None ->
             e = HTTPException HTTP_409_CONFLICT
                   ("Já existe um atleta cadastrado com o cpf: " ++ in_cpf in2))).
Proof.
  split.
  - intros env atleta_in s categoria centro Hc Ht Hf.
    exists (set_pending None s).
    rewrite (post_run env atleta_in s categoria centro Hc Ht), Hf.
    unfold fails. simpl. repeat split; reflexivity.
  - intros env1 env2 in1 in2 s0 s1 s2 out1 e E1 Hcpf E2.
    destruct (post_return_inv _ _ _ _ _ E1) as [Hidle [Hin Hnd]].
    pose proof (post_raise_inv _ _ _ _ _ Hidle E2) as ->.
    split; [rewrite E1; reflexivity|]. split.
    + pose proof (with_cpf_at_most_one (in_cpf in1) _ Hnd).
      pose proof (with_cpf_present (in_cpf in1) _ Hin). lia.
    + intros Hce Hte Hnf.
      destruct (proj2 (categoria_lookup _ _) Hce) as [c Hc].
      destruct (proj2 (centro_lookup _ _) Hte) as [t Ht].
      rewrite (post_run env2 in2 s1 c t Hc Ht) in E2.
      unfold flush in E2. rewrite Hnf in E2.
      rewrite unique_cpf_clash in E2.
      * now injection E2 as <- _.
      * unfold view. rewrite Hidle. unfold inserted_row. simpl.
        rewrite Hcpf. exact Hin.
Qed.

Lemma post_duplicate_cpf_witness :
  (exists s',
      post Sample.env Sample.ana_again_in Sample.db
      = (Raise (HTTPException 409
                  "Já existe um atleta cadastrado com o cpf: 11111111111"), s')
      /\ atletas s' = [Sample.ana; Sample.bob])
  /\ List.length (with_cpf "33333333333"
                    (atletas (snd (post Sample.env2 Sample.joao_in
                                     (snd (post Sample.env Sample.joao_in Sample.db))))))
     = 1%nat.
Proof.
  split.
  - destruct (proj1 post_duplicate_cpf Sample.env Sample.ana_again_in Sample.db
                Sample.scale Sample.ct_king eq_refl eq_refl eq_refl)
      as [s' [E [_ [_ [_ [Hrows _]]]]]].
    exists s'. split; [exact E | exact Hrows].
  - exact (proj1 (proj2 (proj2 post_duplicate_cpf Sample.env Sample.env2
                           Sample.joao_in Sample.joao_in Sample.db _ _ _ _
                           eq_refl eq_refl eq_refl))).
Defined.

(** C8. When the persistence step of a create request fails with anything
    other than an integrity violation, [post] rolls the transaction back
    before it raises (nothing is left in flight, the athlete table is as
    before, so no partial write is visible) and fails with
    [PersistenceError], status 500, the detail carrying the cause. *)
Theorem post_persistence_error (env : Env) (atleta_in : AtletaIn) (s : Session)
    (categoria : CategoriaModel) (centro : CentroTreinamentoModel) (cause : string) :
  categoria_resolves s (categoria_in_nome (in_categoria atleta_in)) categoria ->
  centro_resolves s (centro_in_nome (in_centro_treinamento atleta_in)) centro ->
  flush env (view s ++ [inserted_row env atleta_in categoria centro s]) = Failed cause ->
  exists s',
    post env atleta_in s
    = (Raise (HTTPException HTTP_500_INTERNAL_SERVER_ERROR
                ("Ocorreu um erro ao inserir os dados no banco: " ++ cause)), s')
    /\ fails (fst (post env atleta_in s)) PersistenceError 500
         ("Ocorreu um erro ao inserir os dados no banco: " ++ cause)
    /\ response_status post_status_code (fst (post env atleta_in s)) = 500
    /\ pending s' = None /\ view s' = atletas s /\ atletas s' = atletas s
    /\ categorias s' = categorias s
    /\ centros_treinamento s' = centros_treinamento s.
Proof.
  intros Hc Ht Hf. exists (set_pending None s).
  rewrite (post_run env atleta_in s categoria centro Hc Ht), Hf.
  unfold fails. simpl. repeat split; reflexivity.
Qed.

Lemma post_persistence_error_witness :
  exists s',
    post Sample.env_down Sample.joao_in Sample.db
    = (Raise (HTTPException 500
                "Ocorreu um erro ao inserir os dados no banco: connection lost"), s')
    /\ atletas s' = [Sample.ana; Sample.bob] /\ pending s' = None.
Proof.
  destruct (post_persistence_error Sample.env_down Sample.joao_in Sample.db
              Sample.scale Sample.ct_king "connection lost" eq_refl eq_refl eq_refl)
    as [s' [E [_ [_ [Hp [_ [Hrows _]]]]]]].
  exists s'. split; [exact E|]. split; [exact Hrows | exact Hp].
Defined.

(** C10. Whatever constraint the persistence step of a create request
    reports as violated, [post] answers as for a duplicate CPF: it rolls
    back and raises status 409 with the detail naming the request's CPF, the
    [DuplicateKey] kind and not [PersistenceError]; so also for a constraint
    other than the CPF's, and for a CPF no row carries. *)
Theorem post_any_integrity_error_is_conflict (env : Env) (atleta_in : AtletaIn)
    (s : Session) (categoria : CategoriaModel) (centro : CentroTreinamentoModel)
    (c : constraint) :
  categoria_resolves s (categoria_in_nome (in_categoria atleta_in)) categoria ->
  centro_resolves s (centro_in_nome (in_centro_treinamento atleta_in)) centro ->
  flush env (view s ++ [inserted_row env atleta_in categoria centro s]) = Integrity c ->
  post env atleta_in s
  = (Raise (HTTPException HTTP_409_CONFLICT
              ("Já existe um atleta cadastrado com o cpf: " ++ in_cpf atleta_in)),
     set_pending None s)
  /\ fails (fst (post env atleta_in s)) DuplicateKey 409
       ("Já existe um atleta cadastrado com o cpf: " ++ in_cpf atleta_in)
  /\ response_status post_status_code (fst (post env atleta_in s)) = 409.
Proof.
  intros Hc Ht Hf.
  rewrite (post_run env atleta_in s categoria centro Hc Ht), Hf.
  unfold fails. simpl. repeat split; reflexivity.
Qed.

Lemma post_any_integrity_error_is_conflict_witness :
  with_cpf "33333333333" (atletas Sample.db) = []
  /\ post Sample.env_fk Sample.joao_in Sample.db
     = (Raise (HTTPException 409
                 "Já existe um atleta cadastrado com o cpf: 33333333333"),
        Sample.db).
Proof.
  split; [reflexivity|].
  exact (proj1 (post_any_integrity_error_is_conflict Sample.env_fk Sample.joao_in
                  Sample.db Sample.scale Sample.ct_king
                  (other_constraint "atletas_id_key") eq_refl eq_refl eq_refl)).
Defined.

(* ================================================================= *)
(** ** [get], [patch], [delete] *)

Lemma lookup_absent (s : Session) (id_ : UUID) :
  ~ atleta_exists s id_ -> find (fun a => N.eqb (id a) id_) (view s) = None.
Proof.
  intros H. apply find_absent. intros a Ha.
  destruct (N.eqb (id a) id_) eqn:E; [|reflexivity].
  apply N.eqb_eq in E. exfalso. apply H. now exists a.
Qed.

Lemma lookup_found (s : Session) (id_ : UUID) (a : AtletaModel) :
  find (fun a => N.eqb (id a) id_) (view s) = Some a -> In a (view s) /\ id a = id_.
Proof.
  intros H. apply find_some in H. destruct H as [Hin E].
  apply N.eqb_eq in E. now split.
Qed.

(** C6. For an identifier no athlete row carries, [get], [patch] and
    [delete] each fail with [NotFound], status 404, and leave the session,
    and with it every table, as it was. *)
Theorem not_found_get_patch_delete (env : Env) (id_ : UUID) (atleta_up : AtletaUpdate)
    (s : Session) :
  ~ atleta_exists s id_ ->
  let e := HTTPException HTTP_404_NOT_FOUND
             ("Atleta não encontrado no id: " ++ uuid_str id_) in
  (get id_ s = (Raise e, s)
   /\ patch env id_ atleta_up s = (Raise e, s)
   /\ delete env id_ s = (Raise e, s))
  /\ kind_of e = Some NotFound
  /\ (response_status get_status_code (fst (get id_ s)) = 404
      /\ response_status patch_status_code (fst (patch env id_ atleta_up s)) = 404
      /\ response_status delete_status_code (fst (delete env id_ s)) = 404).
Proof.
  intros H e. apply lookup_absent in H.
  assert (Hg : get id_ s = (Raise e, s)).
  { unfold get, bind, scalars_first. rewrite H. reflexivity. }
  assert (Hp : patch env id_ atleta_up s = (Raise e, s)).
  { unfold patch, bind, scalars_first. rewrite H. reflexivity. }
  assert (Hd : delete env id_ s = (Raise e, s)).
  { unfold delete, bind, scalars_first. rewrite H. reflexivity. }
  rewrite Hg, Hp, Hd. repeat split; reflexivity.
Qed.

Lemma not_found_get_patch_delete_witness :
  fst (get 99%N Sample.db)
  = Raise (HTTPException 404
             "Atleta não encontrado no id: 00000000-0000-0000-0000-000000000063")
  /\ snd (patch Sample.env 99%N Sample.only_peso Sample.db) = Sample.db
  /\ snd (delete Sample.env 99%N Sample.db) = Sample.db.
Proof.
  assert (H : ~ atleta_exists Sample.db 99%N).
  { intros [a [Hin E]]. simpl in Hin.
    destruct Hin as [<-|[<-|[]]]; discriminate E. }
  destruct (not_found_get_patch_delete Sample.env 99%N Sample.only_peso Sample.db H)
    as [[Hg [Hp Hd]] _].
  rewrite Hg, Hp, Hd. repeat split; reflexivity.
Defined.

Lemma setattr_pk_id (a : AtletaModel) (kv : item) : pk_id (setattr a kv) = pk_id a.
Proof. destruct kv; reflexivity. Qed.

Lemma fold_setattr_pk_id (l : list item) (a : AtletaModel) :
  pk_id (fold_left setattr l a) = pk_id a.
Proof.
  revert a. induction l as [|kv l IH]; intros a; simpl.
  - reflexivity.
  - rewrite IH. apply setattr_pk_id.
Qed.

Lemma replace_row_twice (a b : AtletaModel) (rows : list AtletaModel) :
  pk_id a = pk_id b -> replace_row b (replace_row a rows) = replace_row b rows.
Proof.
  intros E. unfold replace_row. rewrite map_map. apply map_ext. intros r.
  destruct (pk_id r =? pk_id a) eqn:Hr.
  - rewrite <- E, Hr. rewrite E, Z.eqb_refl. reflexivity.
  - rewrite <- E, Hr. reflexivity.
Qed.

(** The loop of [patch]: the object ends as the fold of [setattr] over the
    items, and as soon as one attribute is set the session's copy is that
    object. *)
Lemma setattr_items_run (l : list item) (a : AtletaModel) (s : Session) :
  setattr_items l a s =
  (Return (fold_left setattr l a),
   match l with
   | [] => s
   | _ :: _ => set_pending (Some (replace_row (fold_left setattr l a) (view s))) s
   end).
Proof.
  revert a s. induction l as [|kv l IH]; intros a s.
  - reflexivity.
  - cbn [setattr_items]. unfold bind, tracked_setattr. rewrite IH.
    f_equal. cbn [fold_left].
    assert (E : map (fun r => if pk_id r =? pk_id a then setattr a kv else r) (view s)
                = replace_row (setattr a kv) (view s)).
    { unfold replace_row. apply map_ext. intros r. now rewrite setattr_pk_id. }
    rewrite E. destruct l as [|kv' l].
    + reflexivity.
    + cbn [view pending set_pending]. rewrite replace_row_twice.
      * reflexivity.
      * now rewrite fold_setattr_pk_id.
Qed.

Lemma fold_setattr_updated (u : AtletaUpdate) (a : AtletaModel) :
  fold_left setattr (model_dump_exclude_unset u) a = updated u a.
Proof.
  destruct a. destruct u as [[?|] [?|] [?|] [?|] [?|]]; reflexivity.
Qed.

Lemma NoDup_map_eq {A B : Type} (f : A -> B) (l : list A) (x y : A) :
  NoDup (map f l) -> In x l -> In y l -> f x = f y -> x = y.
Proof.
  induction l as [|z l IH]; simpl; intros Hnd Hx Hy E.
  - destruct Hx.
  - inversion Hnd as [|? ? Hz Hl]; subst.
    destruct Hx as [->|Hx], Hy as [->|Hy].
    + reflexivity.
    + exfalso. apply Hz. rewrite E. now apply in_map.
    + exfalso. apply Hz. rewrite <- E. now apply in_map.
    + now apply IH.
Qed.

(** Taking a row out of the table keeps any key pairwise different. *)
Lemma without_row_NoDup {K : Type} (key : AtletaModel -> K) (a : AtletaModel)
    (rows : list AtletaModel) :
  NoDup (map key rows) -> NoDup (map key (without_row a rows)).
Proof.
  unfold without_row. induction rows as [|z rows IH]; simpl; intros Hnd.
  - constructor.
  - inversion Hnd as [|? ? Hz Hl]; subst.
    destruct (negb (pk_id z =? pk_id a)); simpl.
    + constructor; [|now apply IH].
      intros Hin. apply Hz. apply in_map_iff in Hin.
      destruct Hin as [x [E Hx]]. apply filter_In in Hx.
      rewrite <- E. apply in_map. tauto.
    + now apply IH.
Qed.

Lemma replace_row_same (a : AtletaModel) (rows : list AtletaModel) :
  NoDup (map pk_id rows) -> In a rows -> replace_row a rows = rows.
Proof.
  intros Hnd Hin. unfold replace_row.
  rewrite <- (map_id rows) at 2. apply map_ext_in. intros r Hr.
  destruct (pk_id r =? pk_id a) eqn:E; [|reflexivity].
  apply Z.eqb_eq in E. symmetry. now apply (NoDup_map_eq pk_id rows).
Qed.

Lemma find_replaced (a' : AtletaModel) (rows : list AtletaModel) :
  (exists r, In r rows /\ pk_id r = pk_id a') ->
  find (fun r => pk_id r =? pk_id a') (replace_row a' rows) = Some a'.
Proof.
  induction rows as [|z rows IH]; intros [r [Hin E]].
  - destruct Hin.
  - simpl. destruct (pk_id z =? pk_id a') eqn:Hz.
    + now rewrite Z.eqb_refl.
    + rewrite Hz. apply IH. destruct Hin as [->|Hin].
      * rewrite E, Z.eqb_refl in Hz. discriminate.
      * now exists r.
Qed.

(** The session when the loop of [patch] is over. *)
Lemma patch_loop (u : AtletaUpdate) (a : AtletaModel) (s : Session) :
  NoDup (map pk_id (view s)) -> In a (view s) ->
  exists s1,
    setattr_items (model_dump_exclude_unset u) a s = (Return (updated u a), s1)
    /\ view s1 = replace_row (updated u a) (view s)
    /\ atletas s1 = atletas s /\ categorias s1 = categorias s
    /\ centros_treinamento s1 = centros_treinamento s
    /\ db_lower s1 = db_lower s.
Proof.
  intros Hnd Hin. rewrite setattr_items_run, fold_setattr_updated.
  eexists. split; [reflexivity|].
  pose proof (fold_setattr_updated u a) as Hu.
  destruct (model_dump_exclude_unset u) as [|kv l].
  - simpl in Hu. rewrite <- Hu. rewrite replace_row_same by assumption.
    repeat split; reflexivity.
  - repeat split; reflexivity.
Qed.

(** C4, as the code has it.  For an update request on an athlete that
    exists, when the engine accepts the commit: [patch] returns, with status
    200, the row in which each field the request set has the request's value
    and every field it did not set has the value it had; identifier, keys,
    creation time and the category and training-centre links are never
    touched; the table holds that row in place of the old one and every
    other row as before, and the transaction is committed.  A request that
    sets the weight alone changes the weight and leaves name, CPF and
    category as they were.  And whenever [patch] returns, what it returns is
    the row read back from the committed table under the athlete's primary
    key. *)
Theorem patch_changes_only_set_fields :
  (forall (env : Env) (id_ : UUID) (atleta_up : AtletaUpdate) (s : Session)
          (a : AtletaModel),
      find (fun r => N.eqb (id r) id_) (view s) = Some a ->
      NoDup (map pk_id (view s)) ->
      flush env (replace_row (updated atleta_up a) (view s)) = Accepted ->
      exists a' s',
        patch env id_ atleta_up s = (Return a', s')
        /\ response_status patch_status_code (fst (patch env id_ atleta_up s)) = 200
        /\ ((forall v, up_nome atleta_up = Some v -> nome a' = v)
            /\ (forall v, up_cpf atleta_up = Some v -> cpf a' = v)
            /\ (forall v, up_peso atleta_up = Some v -> peso a' = v)
            /\ (forall v, up_altura atleta_up = Some v -> altura a' = v)
            /\ (forall v, up_sexo atleta_up = Some v -> sexo a' = v))
        /\ ((up_nome atleta_up = None -> nome a' = nome a)
            /\ (up_cpf atleta_up = None -> cpf a' = cpf a)
            /\ (up_peso atleta_up = None -> peso a' = peso a)
            /\ (up_altura atleta_up = None -> altura a' = altura a)
            /\ (up_sexo atleta_up = None -> sexo a' = sexo a))
        /\ (pk_id a' = pk_id a /\ id a' = id a /\ created_at a' = created_at a
            /\ categoria_id a' = categoria_id a
            /\ centro_treinamento_id a' = centro_treinamento_id a)
        /\ (pending s' = None
            /\ atletas s' = map (fun r => if pk_id r =? pk_id a then a' else r) (view s)
            /\ categorias s' = categorias s
            /\ centros_treinamento s' = centros_treinamento s)
        /\ (forall w,
               atleta_up = {| up_nome := None; up_cpf := None; up_peso := Some w;
                              up_altura := None; up_sexo := None |} ->
               peso a' = w /\ nome a' = nome a /\ cpf a' = cpf a
               /\ categoria_id a' = categoria_id a))
  /\ (forall (env : Env) (id_ : UUID) (atleta_up : AtletaUpdate) (s s' : Session)
             (a' : AtletaModel),
         patch env id_ atleta_up s = (Return a', s') ->
         pending s' = None
         /\ exists a,
              find (fun r => N.eqb (id r) id_) (view s) = Some a
              /\ find (fun r => pk_id r =? pk_id a) (atletas s') = Some a').
Proof.
  split.
  - intros env id_ atleta_up s a Hfind Hnd Hflush.
    destruct (lookup_found _ _ _ Hfind) as [Hin _].
    destruct (patch_loop atleta_up a s Hnd Hin)
      as [s1 [Hloop [Hview [Hat [Hcat [Hct Hlo]]]]]].
    assert (Hrefresh : find (fun r => pk_id r =? pk_id (updated atleta_up a))
                         (replace_row (updated atleta_up a) (view s))
                       = Some (updated atleta_up a)).
    { apply find_replaced. now exists a. }
    assert (E : patch env id_ atleta_up s
                = (Return (updated atleta_up a),
                   committed (replace_row (updated atleta_up a) (view s)) s)).
    { unfold patch, bind, scalars_first. rewrite Hfind, Hloop.
      unfold commit. rewrite Hview, Hflush. unfold refresh, ret.
      cbn [view pending atletas set_pending set_atletas]. rewrite Hrefresh.
      unfold committed, set_pending, set_atletas. cbn. now rewrite Hcat, Hct, Hlo. }
    exists (updated atleta_up a),
      (committed (replace_row (updated atleta_up a) (view s)) s).
    rewrite E. split; [reflexivity|]. split; [reflexivity|].
    split.
    { simpl. repeat split; intros v ->; reflexivity. }
    split.
    { simpl. repeat split; intros ->; reflexivity. }
    split.
    { simpl. repeat split. }
    split.
    { simpl. repeat split. }
    intros w ->. simpl. repeat split.
  - intros env id_ atleta_up s s' a' E.
    unfold patch, bind, scalars_first in E.
    destruct (find (fun r => N.eqb (id r) id_) (view s)) as [a|] eqn:Hfind;
      [|discriminate E].
    rewrite setattr_items_run in E. unfold commit in E.
    destruct (flush env _); try discriminate E.
    unfold refresh, ret in E.
    cbn [view pending atletas set_pending set_atletas] in E.
    rewrite fold_setattr_pk_id in E.
    destruct (find (fun r => pk_id r =? pk_id a) _) as [r|] eqn:Hr;
      [|discriminate E].
    injection E as <- <-. split; [reflexivity|].
    exists a. split; [reflexivity|]. exact Hr.
Qed.

Lemma patch_changes_only_set_fields_witness :
  exists a' s',
    patch Sample.env 10%N Sample.only_peso Sample.db = (Return a', s')
    /\ peso a' = 80 # 1
    /\ (nome a', cpf a', categoria_id a') = ("Mariana Souza", "11111111111", 1)
    /\ atletas s' = [a'; Sample.bob]
    /\ find (fun r => pk_id r =? 1) (atletas s') = Some a'.
Proof.
  assert (Hnd : NoDup (map pk_id (view Sample.db))).
  { simpl. repeat constructor; simpl; intuition discriminate. }
  destruct (proj1 patch_changes_only_set_fields Sample.env 10%N Sample.only_peso
              Sample.db Sample.ana eq_refl Hnd eq_refl)
    as [a' [s' [E [_ [_ [_ [_ [[_ [Hrows _]] Hw]]]]]]]].
  destruct (Hw (80 # 1) eq_refl) as [Hp [Hn [Hc Hcat]]].
  destruct (proj2 patch_changes_only_set_fields Sample.env 10%N Sample.only_peso
              Sample.db s' a' E) as [_ [a [Ha Hback]]].
  injection Ha as <-.
  exists a', s'. split; [exact E|]. split; [exact Hp|]. split; [|split].
  - rewrite Hn, Hc, Hcat. reflexivity.
  - rewrite Hrows. reflexivity.
  - exact Hback.
Defined.

(** C4 as worded fails on the sample table: the athlete exists and the
    engine reports nothing of its own, yet an update that sets her CPF to
    the one another athlete holds is not committed and returns no
    representation; the engine's [IntegrityError] leaves the handler as it
    is, the response is a 500 and the table is the one from before. *)
Lemma patch_not_always_committed :
  find (fun r => N.eqb (id r) 10%N) (view Sample.db) = Some Sample.ana
  /\ flush_fault Sample.env = None
  /\ fst (patch Sample.env 10%N Sample2.steal_cpf Sample.db)
     = Raise (IntegrityError uq_cpf)
  /\ response_status patch_status_code
       (fst (patch Sample.env 10%N Sample2.steal_cpf Sample.db)) = 500
  /\ atletas (snd (patch Sample.env 10%N Sample2.steal_cpf Sample.db))
     = atletas Sample.db.
Proof. repeat split. Qed.

(** C7. For an athlete that exists, in a table whose keys are pairwise
    different and with an engine that does not fail, [delete] removes the
    athlete's row and no other, commits, and returns nothing with status
    204; a [get] with the same identifier then fails with [NotFound], status
    404. *)
Theorem delete_then_get_not_found (env : Env) (id_ : UUID) (s : Session)
    (a : AtletaModel) :
  find (fun r => N.eqb (id r) id_) (view s) = Some a ->
  consistent (view s) ->
  flush_fault env = None ->
  exists s',
    delete env id_ s = (Return tt, s')
    /\ response_status delete_status_code (fst (delete env id_ s)) = 204
    /\ (pending s' = None /\ ~ In a (atletas s')
        /\ (forall r, In r (atletas s') <-> In r (view s) /\ r <> a))
    /\ fails (fst (get id_ s')) NotFound 404
         ("Atleta não encontrado no id: " ++ uuid_str id_)
    /\ response_status get_status_code (fst (get id_ s')) = 404
    /\ snd (get id_ s') = s'.
Proof.
  intros Hfind [Hpk Hid Hcpf] Hnf.
  destruct (lookup_found _ _ _ Hfind) as [Hin Ha].
  assert (Hflush : flush env (without_row a (view s)) = Accepted).
  { unfold flush. rewrite Hnf. unfold unique_cpf.
    replace (distinct (map cpf (without_row a (view s)))) with true; [reflexivity|].
    symmetry. apply distinct_NoDup. now apply without_row_NoDup. }
  assert (E : delete env id_ s = (Return tt, committed (without_row a (view s)) s)).
  { unfold delete, bind, scalars_first. rewrite Hfind.
    unfold session_delete, commit. cbn [view pending set_pending].
    fold (without_row a (view s)). rewrite Hflush. reflexivity. }
  assert (Hrows : forall r, In r (without_row a (view s)) <-> In r (view s) /\ r <> a).
  { intros r. unfold without_row. rewrite filter_In, negb_true_iff, Z.eqb_neq.
    split; intros [Hr Hne]; split; try assumption.
    - intros ->. now apply Hne.
    - intros Epk. apply Hne. now apply (NoDup_map_eq pk_id (view s)). }
  assert (Hgone : ~ atleta_exists (committed (without_row a (view s)) s) id_).
  { intros [r [Hr Er]]. cbn in Hr. apply Hrows in Hr. destruct Hr as [Hr Hne].
    apply Hne. apply (NoDup_map_eq id (view s)); try assumption. congruence. }
  exists (committed (without_row a (view s)) s). rewrite E.
  split; [reflexivity|]. split; [reflexivity|]. split.
  { split; [reflexivity|]. split.
    - cbn. intros Hr. apply Hrows in Hr. now destruct Hr.
    - exact Hrows. }
  apply lookup_absent in Hgone.
  assert (Eg : get id_ (committed (without_row a (view s)) s)
               = (Raise (HTTPException HTTP_404_NOT_FOUND
                           ("Atleta não encontrado no id: " ++ uuid_str id_)),
                  committed (without_row a (view s)) s)).
  { unfold get, bind, scalars_first. rewrite Hgone. reflexivity. }
  rewrite Eg. unfold fails. repeat split; reflexivity.
Qed.

Lemma delete_then_get_not_found_witness :
  exists s',
    delete Sample.env 10%N Sample.db = (Return tt, s')
    /\ atletas s' = [Sample.bob]
    /\ response_status get_status_code (fst (get 10%N s')) = 404.
Proof.
  assert (Hc : consistent (view Sample.db)).
  { split; simpl; repeat constructor; simpl; intuition discriminate. }
  destruct (delete_then_get_not_found Sample.env 10%N Sample.db Sample.ana
              eq_refl Hc eq_refl) as [s' [E [_ [_ [_ [Hg _]]]]]].
  exists s'. split; [exact E|]. split; [|exact Hg].
  injection E as <-. reflexivity.
Defined.

(* ================================================================= *)
(** ** Characters and patterns *)

Lemma chars_step (b0 : ascii) (s1 : string) :
  Text.chars (String b0 s1) =
  match s1 with
  | String b1 s2 =>
      if (Text.lead 192 224 b0 && Text.cont b1)%bool then
        ((N_of_ascii b0 - 192) * 64 + Text.low6 b1)%N :: Text.chars s2
      else
        match s2 with
        | String b2 s3 =>
            if (Text.lead 224 240 b0 && Text.cont b1 && Text.cont b2)%bool then
              ((N_of_ascii b0 - 224) * 4096 + Text.low6 b1 * 64 + Text.low6 b2)%N
                :: Text.chars s3
            else
              match s3 with
              | String b3 s4 =>
                  if (Text.lead 240 248 b0 && Text.cont b1 && Text.cont b2
                      && Text.cont b3)%bool then
                    ((N_of_ascii b0 - 240) * 262144 + Text.low6 b1 * 4096
                     + Text.low6 b2 * 64 + Text.low6 b3)%N :: Text.chars s4
                  else N_of_ascii b0 :: Text.chars s1
              | EmptyString => N_of_ascii b0 :: Text.chars s1
              end
        | EmptyString => N_of_ascii b0 :: Text.chars s1
        end
  | EmptyString => [N_of_ascii b0]
  end.
Proof. reflexivity. Qed.

(** A character that is no continuation byte, put after a text, is read as
    one more character after those of the text. *)
Lemma chars_snoc (n : nat) (s : string) (c : ascii) :
  (String.length s <= n)%nat -> Text.cont c = false ->
  Text.chars (s ++ String c EmptyString) = (Text.chars s ++ [N_of_ascii c])%list.
Proof.
  revert s. induction n as [|n IH]; intros s Hlen Hc.
  - destruct s; [reflexivity | simpl in Hlen; lia].
  - destruct s as [|b0 s1]; [reflexivity|]. simpl in Hlen.
    cbn [append]. rewrite (chars_step b0 (s1 ++ String c "")), (chars_step b0 s1).
    assert (IH1 : forall t, (String.length t <= String.length s1)%nat ->
                  Text.chars (t ++ String c "")
                  = (Text.chars t ++ [N_of_ascii c])%list).
    { intros t Ht. apply IH; [lia | assumption]. }
    clear IH.
    destruct s1 as [|b1 s2].
    + cbn [append]. rewrite Hc, andb_false_r. reflexivity.
    + cbn [append].
      destruct (Text.lead 192 224 b0 && Text.cont b1)%bool.
      { rewrite IH1 by (simpl; lia). reflexivity. }
      destruct s2 as [|b2 s3].
      * cbn [append]. rewrite Hc, andb_false_r.
        pose proof (IH1 (String b1 "") ltac:(simpl; lia)) as H.
        cbn [append] in H. rewrite H. reflexivity.
      * cbn [append].
        destruct (Text.lead 224 240 b0 && Text.cont b1 && Text.cont b2)%bool.
        { rewrite IH1 by (simpl; lia). reflexivity. }
        destruct s3 as [|b3 s4].
        -- cbn [append]. rewrite Hc, andb_false_r.
           pose proof (IH1 (String b1 (String b2 "")) ltac:(simpl; lia)) as H.
           cbn [append] in H. rewrite H. reflexivity.
        -- cbn [append].
           destruct (Text.lead 240 248 b0 && Text.cont b1 && Text.cont b2
                     && Text.cont b3)%bool.
           { rewrite IH1 by (simpl; lia). reflexivity. }
           pose proof (IH1 (String b1 (String b2 (String b3 s4)))
                         ltac:(simpl; lia)) as H.
           cbn [append] in H. rewrite H. reflexivity.
Qed.

(** The characters of the pattern [query] builds around a filter. *)
Lemma chars_wrap (v : string) :
  Text.chars ("%" ++ v ++ "%")
  = Text.percent :: (Text.chars v ++ [Text.percent])%list.
Proof.
  cbn [append]. transitivity (Text.percent :: Text.chars (v ++ "%")).
  - rewrite chars_step. destruct (v ++ "%") as [|b1 [|b2 [|b3 t]]]; reflexivity.
  - f_equal. exact (chars_snoc (String.length v) v "%" (le_n _) eq_refl).
Qed.

Lemma like_match_any (lower : N -> N) (p : list Text.tok) (s : list N) :
  Text.like_match lower (Text.Any :: p) s =
  Text.like_match lower p s ||
  match s with
  | [] => false
  | _ :: s' => Text.like_match lower (Text.Any :: p) s'
  end.
Proof. destruct s; reflexivity. Qed.

Lemma like_match_any_alone (lower : N -> N) (s : list N) :
  Text.like_match lower [Text.Any] s = true.
Proof.
  induction s as [|c s IH].
  - reflexivity.
  - rewrite like_match_any, IH. apply orb_true_r.
Qed.

Lemma tok_of_plain (c : N) :
  Text.meta c = false -> N.eqb c Text.backslash = false /\ Text.tok_of c = Text.Lit c.
Proof.
  unfold Text.meta, Text.tok_of. intros H.
  apply orb_false_iff in H. destruct H as [H Hb].
  apply orb_false_iff in H. destruct H as [Hp Hu].
  now rewrite Hp, Hu, Hb.
Qed.

Lemma like_tokens_plain (v : list N) :
  forallb (fun c => negb (Text.meta c)) v = true ->
  Text.like_tokens (v ++ [Text.percent])
  = Some (map Text.Lit v ++ [Text.Any])%list.
Proof.
  induction v as [|c v IH]; intros H.
  - reflexivity.
  - cbn [forallb] in H. apply andb_true_iff in H. destruct H as [Hc Hv].
    apply negb_true_iff in Hc. destruct (tok_of_plain c Hc) as [Hb Ht].
    cbn [app Text.like_tokens map]. rewrite Hb, Ht, (IH Hv). reflexivity.
Qed.

Lemma like_match_lits (lower : N -> N) (v s : list N) :
  Text.like_match lower (map Text.Lit v ++ [Text.Any]) s = Text.iprefix lower v s.
Proof.
  revert s. induction v as [|c v IH]; intros s.
  - cbn [map app]. rewrite like_match_any_alone. now destruct s.
  - destruct s as [|d s]; [reflexivity|].
    cbn [map app Text.like_match Text.iprefix]. now rewrite IH.
Qed.

Lemma like_match_contains (lower : N -> N) (v s : list N) :
  Text.like_match lower (Text.Any :: map Text.Lit v ++ [Text.Any]) s
  = Text.icontains lower v s.
Proof.
  induction s as [|d s IH].
  - rewrite like_match_any, like_match_lits. reflexivity.
  - rewrite like_match_any, like_match_lits, IH. reflexivity.
Qed.

(** The pattern [query] builds never ends in a lone escape: the engine
    always accepts it. *)
Lemma like_tokens_closed (n : nat) (v : list N) :
  (List.length v <= n)%nat ->
  exists ts, Text.like_tokens (v ++ [Text.percent]) = Some ts.
Proof.
  revert v. induction n as [|n IH]; intros v Hlen.
  - destruct v; [|simpl in Hlen; lia]. now exists [Text.Any].
  - destruct v as [|c v]; [now exists [Text.Any]|].
    simpl in Hlen. cbn [app Text.like_tokens].
    destruct (N.eqb c Text.backslash).
    + destruct v as [|d v].
      * now exists [Text.Lit Text.percent].
      * cbn [app]. simpl in Hlen.
        destruct (IH v ltac:(lia)) as [ts Hts]. rewrite Hts. now eexists.
    + destruct (IH v ltac:(lia)) as [ts Hts]. rewrite Hts. now eexists.
Qed.

Lemma pattern_tokens (v : string) (ts : list Text.tok) :
  Text.like_tokens (Text.chars v ++ [Text.percent]) = Some ts ->
  nome_ilike ("%" ++ v ++ "%")
  = Some (fun lower a =>
            Text.like_match lower (Text.Any :: ts) (Text.chars (nome a))).
Proof.
  intros Hts. unfold nome_ilike. rewrite chars_wrap.
  cbn [Text.like_tokens]. change (N.eqb Text.percent Text.backslash) with false.
  cbn iota. rewrite Hts. reflexivity.
Qed.

Lemma nome_ilike_accepted (v : string) :
  exists ts,
    Text.like_tokens (Text.chars v ++ [Text.percent]) = Some ts
    /\ nome_ilike ("%" ++ v ++ "%")
       = Some (fun lower a =>
                 Text.like_match lower (Text.Any :: ts) (Text.chars (nome a))).
Proof.
  destruct (like_tokens_closed _ (Text.chars v) (le_n _)) as [ts Hts].
  exists ts. split; [assumption | now apply pattern_tokens].
Qed.

Lemma nome_ilike_plain (v : string) :
  Text.plain v = true ->
  nome_ilike ("%" ++ v ++ "%")
  = Some (fun lower a =>
            Text.like_match lower (Text.Any :: lits v ++ [Text.Any])
              (Text.chars (nome a))).
Proof.
  intros H. apply pattern_tokens. now apply like_tokens_plain.
Qed.

Lemma ieqb_lower (lower : N -> N) (c d : N) :
  Text.ieqb lower c d = true <-> lower c = lower d.
Proof. unfold Text.ieqb. apply N.eqb_eq. Qed.

Lemma iprefix_spec (lower : N -> N) (p s : list N) :
  Text.iprefix lower p s = true <->
  exists mid rest, s = (mid ++ rest)%list /\ map lower mid = map lower p.
Proof.
  revert s. induction p as [|c p IH]; intros s.
  - split; [|reflexivity]. intros _. now exists [], s.
  - destruct s as [|d s]; simpl.
    + split; [discriminate|]. intros [mid [rest [E L]]].
      destruct mid; [discriminate L | discriminate E].
    + rewrite andb_true_iff, ieqb_lower, IH. split.
      * intros [Hc [mid [rest [E L]]]].
        exists (d :: mid), rest. simpl. split; [now rewrite E | congruence].
      * intros [mid [rest [E L]]]. destruct mid as [|m mid]; [discriminate L|].
        simpl in E, L. injection E as -> ->. injection L as Hc L.
        split; [now symmetry|]. now exists mid, rest.
Qed.

Lemma icontains_spec (lower : N -> N) (sub s : list N) :
  Text.icontains lower sub s = true <->
  exists pre mid post,
    s = (pre ++ mid ++ post)%list /\ map lower mid = map lower sub.
Proof.
  induction s as [|d s IH]; simpl.
  - rewrite orb_false_r, iprefix_spec. split.
    + intros [mid [rest [E L]]]. now exists [], mid, rest.
    + intros [pre [mid [rest [E L]]]].
      destruct pre; [|discriminate E]. now exists mid, rest.
  - rewrite orb_true_iff, iprefix_spec, IH. split.
    + intros [[mid [rest [E L]]]|[pre [mid [rest [E L]]]]].
      * now exists [], mid, rest.
      * exists (d :: pre), mid, rest. simpl. now rewrite E.
    + intros [pre [mid [rest [E L]]]]. destruct pre as [|c pre].
      * left. now exists mid, rest.
      * right. simpl in E. injection E as _ E. now exists pre, mid, rest.
Qed.

Lemma name_contains_spec (lower : N -> N) (v name : string) :
  Text.icontains lower (Text.chars v) (Text.chars name) = true
  <-> contains_ci lower v name.
Proof. unfold contains_ci. apply icontains_spec. Qed.

(* ================================================================= *)
(** ** [query] *)

Lemma cpf_clause (cpf_filter : option string)
    (p : (N -> N) -> AtletaModel -> bool) :
  exists q,
    match cpf_filter with
    | Some v => if Text.truthy v then where_ (Some p) (cpf_eq v) else Some p
    | None => Some p
    end = Some q
    /\ forall lower a, q lower a = p lower a && cpf_equals_if_truthy cpf_filter a.
Proof.
  unfold cpf_equals_if_truthy, supplied, cpf_equals.
  destruct cpf_filter as [v|].
  - destruct (Text.truthy v).
    + eexists. split; [reflexivity|]. reflexivity.
    + exists p. split; [reflexivity|]. intros lower a. now rewrite andb_true_r.
  - exists p. split; [reflexivity|]. intros lower a. now rewrite andb_true_r.
Qed.

(** The listing once the name clause is known. *)
Lemma query_with_clause (R : Type) (model_validate : Session -> AtletaModel -> R)
    (params : LimitOffsetParams) (cpf_filter : option string) (s : Session)
    (p : (N -> N) -> AtletaModel -> bool) (by_nome : (N -> N) -> string -> bool) :
  (forall lower a, p lower a = by_nome lower (nome a)) ->
  bind
    (scalars_all
       match cpf_filter with
       | Some v => if Text.truthy v then where_ (Some p) (cpf_eq v) else Some p
       | None => Some p
       end)
    (fun atletas s =>
       (Return (paginate params (map (model_validate s) atletas)), s)) s
  = (Return
       (paginate params
          (map (model_validate s)
             (filter (fun a => by_nome (db_lower s) (nome a)
                               && cpf_equals_if_truthy cpf_filter a)
                (view s)))), s).
Proof.
  intros Hp. destruct (cpf_clause cpf_filter p) as [q [Hq Hqa]].
  rewrite Hq. unfold bind, scalars_all.
  rewrite (filter_ext (q (db_lower s))
             (fun a => by_nome (db_lower s) (nome a)
                       && cpf_equals_if_truthy cpf_filter a)).
  - reflexivity.
  - intros a. now rewrite Hqa, Hp.
Qed.

(** The clause a name filter adds, and the one a CPF filter adds. *)
Lemma query_run (R : Type) (model_validate : Session -> AtletaModel -> R)
    (params : LimitOffsetParams) (nome_filter cpf_filter : option string)
    (s : Session) :
  exists by_nome : (N -> N) -> string -> bool,
    query R model_validate params nome_filter cpf_filter s
    = (Return
         (paginate params
            (map (model_validate s)
               (filter (fun a => by_nome (db_lower s) (nome a)
                                 && cpf_equals_if_truthy cpf_filter a)
                  (view s)))), s)
    /\ (supplied nome_filter = false -> by_nome = fun _ _ => true)
    /\ (forall v, nome_filter = Some v -> Text.truthy v = true ->
        forall ts, Text.like_tokens (Text.chars v ++ [Text.percent]) = Some ts ->
        by_nome = fun lower name =>
                    Text.like_match lower (Text.Any :: ts) (Text.chars name))
    /\ (forall v, nome_filter = Some v -> Text.plain v = true ->
        forall lower name,
          by_nome lower name
          = Text.icontains lower (Text.chars v) (Text.chars name)).
Proof.
  unfold query. cbv zeta. destruct nome_filter as [v|].
  - destruct (Text.truthy v) eqn:Hv.
    + destruct (nome_ilike_accepted v) as [ts [Hts Hpat]]. rewrite Hpat.
      change (where_ select_AtletaModel
                (Some (fun lower a =>
                         Text.like_match lower (Text.Any :: ts) (Text.chars (nome a)))))
        with (Some (fun (lower : N -> N) a =>
                      true && Text.like_match lower (Text.Any :: ts)
                                (Text.chars (nome a)))).
      exists (fun lower name =>
                Text.like_match lower (Text.Any :: ts) (Text.chars name)).
      split; [|split; [|split]].
      * apply (query_with_clause R model_validate params cpf_filter s _
                 (fun lower name =>
                    Text.like_match lower (Text.Any :: ts) (Text.chars name))).
        intros lower a. reflexivity.
      * simpl. rewrite Hv. discriminate.
      * intros v' Ev _ ts' Hts'. injection Ev as <-.
        rewrite Hts in Hts'. now injection Hts' as <-.
      * intros v' Ev Hplain lower name. injection Ev as <-.
        unfold Text.plain in Hplain.
        rewrite (like_tokens_plain _ Hplain) in Hts. injection Hts as <-.
        apply like_match_contains.
    + unfold select_AtletaModel.
      exists (fun _ _ => true). split; [|split; [|split]].
      * apply (query_with_clause R model_validate params cpf_filter s _
                 (fun _ _ => true)).
        intros lower a. reflexivity.
      * reflexivity.
      * intros v' Ev Hv'. injection Ev as <-. congruence.
      * intros v' Ev _ lower name. injection Ev as <-.
        destruct v; [|discriminate Hv]. now destruct (Text.chars name).
  - unfold select_AtletaModel.
    exists (fun _ _ => true). split; [|split; [|split]].
    + apply (query_with_clause R model_validate params cpf_filter s _
                 (fun _ _ => true)).
        intros lower a. reflexivity.
    + reflexivity.
    + intros v' Ev. discriminate Ev.
    + intros v' Ev. discriminate Ev.
Qed.

Lemma select_all_rows (rows : list AtletaModel) :
  filter (fun _ : AtletaModel => true) rows = rows.
Proof.
  induction rows as [|a rows IH]; simpl; [reflexivity | now rewrite IH].
Qed.

Lemma filter_and_length {A : Type} (p q : A -> bool) (l : list A) :
  (List.length (filter (fun a => p a && q a) l) <= List.length (filter q l))%nat.
Proof.
  induction l as [|x l IH]; simpl; [lia|].
  destruct (p x), (q x); simpl; lia.
Qed.

Lemma truthy_nonempty (v : string) : Text.truthy v = true <-> v <> EmptyString.
Proof.
  destruct v; simpl; split; try congruence; try discriminate.
Qed.

(** C5, as the code has it.  For every list request the engine answers,
    the session is left as it was and the page is the window of the
    summaries of the rows kept, [total] being their full number: the whole
    filtered set is read and mapped before it is cut.  A row is kept when it
    passes the name test and the CPF test together.  The CPF test holds of
    every row when the filter is absent or the empty string, and otherwise
    of exactly the rows whose CPF equals it, at most one when CPFs are
    pairwise different.  The name test looks at the name alone; it holds of
    every row when the filter is absent, and for a filter that holds none of
    the pattern characters [%], [_] and backslash it holds of exactly the
    rows whose name contains the filter, characters compared after the
    database's case folding. *)
Theorem query_filters_then_paginates (R : Type)
    (model_validate : Session -> AtletaModel -> R) (params : LimitOffsetParams)
    (nome_filter cpf_filter : option string) (s s' : Session)
    (page : LimitOffsetPage R) :
  query R model_validate params nome_filter cpf_filter s = (Return page, s') ->
  exists (by_nome : string -> bool) (kept : list AtletaModel),
    s' = s
    /\ response_status query_status_code
         (fst (query R model_validate params nome_filter cpf_filter s)) = 200
    /\ kept = filter (fun a => by_nome (nome a)
                               && cpf_equals_if_truthy cpf_filter a) (view s)
    /\ page = paginate params (map (model_validate s) kept)
    /\ (items page
        = firstn (limit params) (skipn (offset params) (map (model_validate s) kept))
        /\ total page = List.length kept)
    /\ (forall a,
           In a kept <->
           In a (view s) /\ by_nome (nome a) = true
           /\ (forall v, cpf_filter = Some v -> v <> EmptyString -> cpf a = v))
    /\ (nome_filter = None -> forall name, by_nome name = true)
    /\ (forall v, nome_filter = Some v -> Text.plain v = true ->
        forall name, by_nome name = true <-> contains_ci (db_lower s) v name)
    /\ (supplied cpf_filter = true -> NoDup (map cpf (view s)) ->
        (List.length kept <= 1)%nat).
Proof.
  intros Hret.
  destruct (query_run R model_validate params nome_filter cpf_filter s)
    as [by_nome [E [Hnone [_ Hplain]]]].
  rewrite E in Hret. injection Hret as <- <-.
  exists (by_nome (db_lower s)). eexists.
  split; [reflexivity|]. rewrite E.
  split; [reflexivity|]. split; [reflexivity|]. split; [reflexivity|].
  split; [|split; [|split; [|split]]].
  - cbn [items total paginate]. now rewrite length_map.
  - intros a. rewrite filter_In, andb_true_iff. split.
    + intros [Hin [Hn Hc]]. split; [assumption|]. split; [assumption|].
      intros v -> Hv. unfold cpf_equals_if_truthy in Hc. simpl in Hc.
      apply truthy_nonempty in Hv. rewrite Hv in Hc. now apply String.eqb_eq.
    + intros [Hin [Hn Hc]]. split; [assumption|]. split; [assumption|].
      unfold cpf_equals_if_truthy. destruct cpf_filter as [v|]; [|reflexivity].
      simpl. destruct (Text.truthy v) eqn:Hv; [|reflexivity].
      apply String.eqb_eq. apply Hc; [reflexivity|]. now apply truthy_nonempty.
  - intros -> name. now rewrite (Hnone eq_refl).
  - intros v Ev Hp name. rewrite (Hplain v Ev Hp). apply name_contains_spec.
  - intros Hs Hnd. destruct cpf_filter as [v|]; [|discriminate Hs].
    unfold cpf_equals_if_truthy. rewrite Hs. cbn [cpf_equals].
    etransitivity; [apply filter_and_length|].
    now apply with_cpf_at_most_one.
Qed.

Lemma query_filters_then_paginates_witness :
  exists (by_nome : string -> bool) (kept : list AtletaModel),
    kept = filter (fun a => by_nome (nome a)
                            && cpf_equals_if_truthy (Some "11111111111") a)
             (view Sample.db)
    /\ (forall name, by_nome name = true <-> contains_ci Text.lower_ascii "ANA" name)
    /\ (List.length kept <= 1)%nat.
Proof.
  assert (Hnd : NoDup (map cpf (view Sample.db))).
  { simpl. repeat constructor; simpl; intuition discriminate. }
  destruct (query_filters_then_paginates string Sample.resumo Sample.window
              (Some "ANA") (Some "11111111111") Sample.db Sample.db
              (paginate Sample.window ["Mariana Souza"]) eq_refl)
    as [by_nome [kept [_ [_ [Hk [_ [_ [_ [_ [Hname Hone]]]]]]]]]].
  exists by_nome, kept. split; [exact Hk|]. split.
  - exact (Hname "ANA" eq_refl eq_refl).
  - exact (Hone eq_refl Hnd).
Defined.

(** C5 as worded fails twice on the sample table.  With the CPF filter
    supplied as the empty string the listing returns both rows, though no
    row has the empty CPF; with the name filter [_] it returns both rows,
    though no name contains an underscore.  Either way the answer is not the
    one the wording gives. *)
Lemma query_not_as_worded :
  (query string Sample.resumo Sample.window None (Some "") Sample.db
   = (Return (paginate Sample.window ["Mariana Souza"; "Bob"]), Sample.db)
   /\ with_cpf "" (view Sample.db) = []
   /\ query string Sample.resumo Sample.window None (Some "") Sample.db
      <> listed_as_worded Sample.resumo Sample.window None (Some "") Sample.db)
  /\ (query string Sample.resumo Sample.window (Some "_") None Sample.db
      = (Return (paginate Sample.window ["Mariana Souza"; "Bob"]), Sample.db)
      /\ filter (fun a => name_contains Text.lower_ascii (Some "_") a)
           (view Sample.db) = []
      /\ query string Sample.resumo Sample.window (Some "_") None Sample.db
         <> listed_as_worded Sample.resumo Sample.window (Some "_") None Sample.db).
Proof.
  assert (Hne : forall r r' : outcome (LimitOffsetPage string) * Session,
             match fst r, fst r' with
             | Return page, Return page' => total page <> total page'
             | _, _ => False
             end -> r <> r').
  { intros r r' H E. subst r'. destruct (fst r); [now apply H | exact H]. }
  split; (split; [reflexivity|]); (split; [reflexivity|]);
    apply Hne; vm_compute; discriminate.
Qed.

(** C9. A [nome] or [cpf] parameter supplied as the empty string adds no
    filter: the listing is the one of the request without that parameter,
    and with [cpf] empty and no name filter it returns every athlete row. *)
Theorem query_empty_string_adds_no_filter (R : Type)
    (model_validate : Session -> AtletaModel -> R) (params : LimitOffsetParams)
    (nome_filter cpf_filter : option string) (s : Session) :
  query R model_validate params (Some EmptyString) cpf_filter s
  = query R model_validate params None cpf_filter s
  /\ query R model_validate params nome_filter (Some EmptyString) s
     = query R model_validate params nome_filter None s
  /\ query R model_validate params None (Some EmptyString) s
     = (Return (paginate params (map (model_validate s) (view s))), s).
Proof.
  split; [reflexivity|]. split; [reflexivity|].
  unfold query, bind, scalars_all. simpl. now rewrite select_all_rows.
Qed.

(* ================================================================= *)
(** ** The keys stay pairwise different *)

Lemma flush_accepted (env : Env) (rows : list AtletaModel) :
  flush env rows = Accepted -> NoDup (map cpf rows).
Proof.
  unfold flush. destruct (flush_fault env) as [[?|?]|]; try discriminate.
  destruct (unique_cpf rows) eqn:E; try discriminate.
  intros _. now apply distinct_NoDup.
Qed.

Lemma next_pk_fresh (rows : list AtletaModel) (r : AtletaModel) :
  In r rows -> pk_id r < next_pk rows.
Proof.
  unfold next_pk. induction rows as [|z rows IH]; cbn [map fold_right]; intros Hin.
  - destruct Hin.
  - destruct Hin as [->|Hin]; [lia|]. specialize (IH Hin). lia.
Qed.

Lemma NoDup_snoc {A : Type} (l : list A) (x : A) :
  NoDup l -> ~ In x l -> NoDup (l ++ [x]).
Proof.
  induction l as [|y l IH]; simpl; intros Hnd Hx.
  - constructor; [intros [] | constructor].
  - inversion Hnd as [|? ? Hy Hl]; subst. constructor.
    + rewrite in_app_iff. simpl. intuition congruence.
    + apply IH; [assumption|]. intuition.
Qed.

(** A create that goes through, with an identifier no row carries yet,
    leaves the keys pairwise different. *)
Lemma post_keeps_consistent (env : Env) (atleta_in : AtletaIn) (s : Session)
    (categoria : CategoriaModel) (centro : CentroTreinamentoModel) :
  consistent (view s) ->
  ~ In (uuid4 env) (map id (view s)) ->
  flush env (view s ++ [inserted_row env atleta_in categoria centro s]) = Accepted ->
  consistent (view s ++ [inserted_row env atleta_in categoria centro s]).
Proof.
  intros [Hpk Hid _] Hfresh Hflush. split.
  - rewrite map_app. apply NoDup_snoc; [assumption|].
    intros Hin. apply in_map_iff in Hin. destruct Hin as [r [E Hr]].
    apply next_pk_fresh in Hr. unfold inserted_row in E. simpl in E. lia.
  - rewrite map_app. now apply NoDup_snoc.
  - now apply flush_accepted in Hflush.
Qed.

Lemma patch_keeps_consistent (env : Env) (atleta_up : AtletaUpdate)
    (rows : list AtletaModel) (a : AtletaModel) :
  consistent rows -> In a rows ->
  flush env (replace_row (updated atleta_up a) rows) = Accepted ->
  consistent (replace_row (updated atleta_up a) rows).
Proof.
  intros [Hpk Hid _] Hin Hflush. split.
  - replace (map pk_id (replace_row (updated atleta_up a) rows)) with (map pk_id rows);
      [assumption|].
    unfold replace_row. rewrite map_map. apply map_ext. intros r. simpl.
    destruct (pk_id r =? pk_id a) eqn:E; [|reflexivity].
    apply Z.eqb_eq in E. now rewrite E.
  - replace (map id (replace_row (updated atleta_up a) rows)) with (map id rows);
      [assumption|].
    unfold replace_row. rewrite map_map. apply map_ext_in. intros r Hr. simpl.
    destruct (pk_id r =? pk_id a) eqn:E; [|reflexivity].
    apply Z.eqb_eq in E. now rewrite (NoDup_map_eq pk_id rows r a Hpk Hr Hin E).
  - now apply flush_accepted in Hflush.
Qed.

Lemma delete_keeps_consistent (rows : list AtletaModel) (a : AtletaModel) :
  consistent rows -> consistent (without_row a rows).
Proof.
  intros [Hpk Hid Hcpf]. split; now apply without_row_NoDup.
Qed.

(** [patch] and [delete] have no [except]: when the engine turns the commit
    down, its exception leaves the handler as it is, and the committed table
    is the one from before. *)
Lemma patch_commit_refused (env : Env) (id_ : UUID) (atleta_up : AtletaUpdate)
    (s : Session) (a : AtletaModel) :
  find (fun r => N.eqb (id r) id_) (view s) = Some a ->
  NoDup (map pk_id (view s)) ->
  flush env (replace_row (updated atleta_up a) (view s)) <> Accepted ->
  exists e s',
    patch env id_ atleta_up s = (Raise e, s')
    /\ atletas s' = atletas s
    /\ match e with HTTPException _ _ => False | _ => True end.
Proof.
  intros Hfind Hnd Hflush.
  destruct (lookup_found _ _ _ Hfind) as [Hin _].
  destruct (patch_loop atleta_up a s Hnd Hin) as [s1 [Hloop [Hview [Hat _]]]].
  unfold patch, bind, scalars_first. rewrite Hfind, Hloop.
  unfold commit. rewrite Hview.
  destruct (flush env _) eqn:E; [contradiction| |];
    eexists; eexists; (split; [reflexivity|]); now split.
Qed.

(* ================================================================= *)
(** ** Further properties of the handlers *)

Lemma find_by_id (rows : list AtletaModel) (a : AtletaModel) :
  NoDup (map id rows) -> In a rows ->
  find (fun r => N.eqb (id r) (id a)) rows = Some a.
Proof.
  induction rows as [|z rows IH]; intros Hnd Hin.
  - destruct Hin.
  - cbn [find]. destruct (N.eqb (id z) (id a)) eqn:E.
    + apply N.eqb_eq in E. f_equal.
      apply (NoDup_map_eq id (z :: rows)); simpl; auto.
    + destruct Hin as [->|Hin]; [rewrite N.eqb_refl in E; discriminate|].
      inversion Hnd; subst. now apply IH.
Qed.

Lemma get_found (id_ : UUID) (s : Session) (a : AtletaModel) :
  find (fun r => N.eqb (id r) id_) (view s) = Some a -> get id_ s = (Return a, s).
Proof.
  intros H. unfold get, bind, scalars_first. now rewrite H.
Qed.

(** X1. In a table whose identifiers are pairwise different, [get] with the
    identifier of any stored row returns that very row, with status 200, and
    leaves the session as it was. *)
Theorem get_returns_stored_row (s : Session) (a : AtletaModel) :
  NoDup (map id (view s)) -> In a (view s) ->
  get (id a) s = (Return a, s)
  /\ response_status get_status_code (fst (get (id a) s)) = 200.
Proof.
  intros Hnd Hin.
  rewrite (get_found _ _ _ (find_by_id _ _ Hnd Hin)). split; reflexivity.
Qed.

Lemma get_returns_stored_row_witness :
  get 20%N Sample.db = (Return Sample.bob, Sample.db).
Proof.
  assert (Hnd : NoDup (map id (view Sample.db))).
  { simpl. repeat constructor; simpl; intuition discriminate. }
  exact (proj1 (get_returns_stored_row Sample.db Sample.bob Hnd
                  (or_intror (or_introl eq_refl)))).
Defined.

(** X2. The pattern [query] builds around a name filter never ends in a
    lone escape character, whatever the filter holds; and whenever [query]
    returns, the session is as it was, the page holds
    [min limit (total - offset)] items, so never more than [limit] and none
    when the offset is at or past the total, and its total never exceeds the
    number of rows in the table. *)
Theorem query_page_within_window :
  (forall v : string,
      exists ts,
        Text.like_tokens (Text.chars ("%" ++ v ++ "%")) = Some (Text.Any :: ts))
  /\ (forall (R : Type) (model_validate : Session -> AtletaModel -> R)
             (params : LimitOffsetParams) (nome_filter cpf_filter : option string)
             (s s' : Session) (page : LimitOffsetPage R),
         query R model_validate params nome_filter cpf_filter s = (Return page, s') ->
         s' = s
         /\ List.length (items page)
            = Nat.min (limit params) (total page - offset params)
         /\ (total page <= List.length (view s))%nat
         /\ page_limit page = limit params /\ page_offset page = offset params).
Proof.
  split.
  - intros v. rewrite chars_wrap. cbn [Text.like_tokens].
    change (N.eqb Text.percent Text.backslash) with false. cbn iota.
    destruct (like_tokens_closed _ (Text.chars v) (le_n _)) as [ts Hts].
    rewrite Hts. now exists ts.
  - intros R model_validate params nome_filter cpf_filter s s' page Hret.
    destruct (query_run R model_validate params nome_filter cpf_filter s)
      as [by_nome [E _]].
    rewrite E in Hret. injection Hret as <- <-.
    split; [reflexivity|].
    cbn [items total page_limit page_offset paginate].
    split; [|split; [|split; reflexivity]].
    + now rewrite length_firstn, length_skipn.
    + rewrite length_map. apply filter_length_le.
Qed.

Lemma query_page_within_window_witness :
  List.length (items (paginate Sample2.narrow ["Mariana Souza"; "Bob"]))
  = Nat.min 1 (2 - 1).
Proof.
  exact (proj1 (proj2 (proj2 query_page_within_window string Sample.resumo
                         Sample2.narrow None None Sample.db Sample.db
                         (paginate Sample2.narrow ["Mariana Souza"; "Bob"])
                         eq_refl))).
Defined.

Lemma like_tokens_no_escape (v : list N) :
  forallb (fun c => negb (N.eqb c Text.backslash)) v = true ->
  Text.like_tokens (v ++ [Text.percent])
  = Some (map Text.tok_of v ++ [Text.Any])%list.
Proof.
  induction v as [|c v IH]; intros H.
  - reflexivity.
  - cbn [forallb] in H. apply andb_true_iff in H. destruct H as [Hc Hv].
    apply negb_true_iff in Hc.
    cbn [app Text.like_tokens map]. rewrite Hc, (IH Hv). reflexivity.
Qed.

Lemma like_match_toks (lower : N -> N) (v s : list N) :
  Text.iprefix lower v s = true ->
  Text.like_match lower (map Text.tok_of v ++ [Text.Any]) s = true.
Proof.
  revert s. induction v as [|c v IH]; intros s H.
  - apply like_match_any_alone.
  - destruct s as [|d s]; [discriminate H|].
    cbn [Text.iprefix] in H. apply andb_true_iff in H. destruct H as [Hcd Hv].
    specialize (IH s Hv). cbn [map app]. unfold Text.tok_of at 1.
    destruct (N.eqb c Text.percent).
    + rewrite like_match_any. apply orb_true_iff. right.
      rewrite like_match_any, IH. reflexivity.
    + destruct (N.eqb c Text.underscore).
      * cbn [Text.like_match]. exact IH.
      * cbn [Text.like_match]. now rewrite Hcd, IH.
Qed.

Lemma like_match_toks_contains (lower : N -> N) (v s : list N) :
  Text.icontains lower v s = true ->
  Text.like_match lower (Text.Any :: map Text.tok_of v ++ [Text.Any]) s = true.
Proof.
  induction s as [|d s IH]; cbn [Text.icontains]; intros H;
    rewrite like_match_any; apply orb_true_iff in H; apply orb_true_iff.
  - destruct H as [H|H]; [|discriminate H]. left. now apply like_match_toks.
  - destruct H as [H|H]; [left; now apply like_match_toks | right; now apply IH].
Qed.

(** X3. With a name filter that holds no escape character, the wildcards
    [%] and [_] in it can only widen the listing: whenever [query] returns,
    every row whose name contains the filter as it is written, characters
    compared after the database's case folding, and that passes the CPF test
    is among the rows listed; and every row listed is a row of the table
    that passes the CPF test. *)
Theorem query_wildcards_only_widen (R : Type)
    (model_validate : Session -> AtletaModel -> R) (params : LimitOffsetParams)
    (v : string) (cpf_filter : option string) (s s' : Session)
    (page : LimitOffsetPage R) :
  query R model_validate params (Some v) cpf_filter s = (Return page, s') ->
  no_escape v = true ->
  exists kept,
    page = paginate params (map (model_validate s) kept)
    /\ (forall a, In a (view s) -> contains_ci (db_lower s) v (nome a) ->
                  cpf_equals_if_truthy cpf_filter a = true -> In a kept)
    /\ (forall a, In a kept ->
                  In a (view s) /\ cpf_equals_if_truthy cpf_filter a = true).
Proof.
  intros Hret Hne.
  destruct (query_run R model_validate params (Some v) cpf_filter s)
    as [by_nome [E [Hnone [Htoks _]]]].
  rewrite E in Hret. injection Hret as <- _.
  eexists. split; [reflexivity|]. split.
  - intros a Hin Hc Hcpf. apply filter_In. split; [assumption|].
    rewrite Hcpf, andb_true_r.
    destruct (Text.truthy v) eqn:Hv.
    + rewrite (Htoks v eq_refl Hv _ (like_tokens_no_escape _ Hne)).
      apply like_match_toks_contains. now apply name_contains_spec.
    + simpl in Hnone. now rewrite (Hnone Hv).
  - intros a Ha. apply filter_In in Ha. destruct Ha as [Hin Hb].
    apply andb_true_iff in Hb. tauto.
Qed.

Lemma query_wildcards_only_widen_witness :
  exists kept,
    paginate Sample.window ["Mariana Souza"]
    = paginate Sample.window (map (Sample.resumo Sample.db) kept)
    /\ In Sample.ana kept.
Proof.
  destruct (query_wildcards_only_widen string Sample.resumo Sample.window "an_" None
              Sample.db Sample.db (paginate Sample.window ["Mariana Souza"])
              eq_refl eq_refl) as [kept [E [Hin Hsub]]].
  exists kept. split; [exact E|].
  assert (Hlen : List.length kept = 1%nat).
  { apply (f_equal total) in E. cbn [total paginate] in E.
    rewrite length_map in E. simpl in E. now symmetry. }
  destruct kept as [|a [|b kept]]; try discriminate Hlen.
  apply (f_equal items) in E. cbn in E. injection E as En.
  destruct (proj1 (Hsub a (or_introl eq_refl))) as [<-|[<-|[]]].
  - now left.
  - discriminate En.
Defined.

Lemma icontains_lower (lower : N -> N) (v v' x : list N) :
  map lower v = map lower v' ->
  Text.icontains lower v x = Text.icontains lower v' x.
Proof.
  intros E.
  assert (H : Text.icontains lower v x = true <-> Text.icontains lower v' x = true).
  { rewrite !icontains_spec. now rewrite E. }
  destruct (Text.icontains lower v x), (Text.icontains lower v' x);
    intuition congruence.
Qed.

(** X4. The name filter does not see case: two filters without pattern
    characters that the database's case folding makes equal give the same
    page, whenever both listings are answered. *)
Theorem query_name_filter_ignores_case (R : Type)
    (model_validate : Session -> AtletaModel -> R) (params : LimitOffsetParams)
    (v v' : string) (cpf_filter : option string) (s s1 s2 : Session)
    (page page' : LimitOffsetPage R) :
  Text.plain v = true -> Text.plain v' = true ->
  map (db_lower s) (Text.chars v) = map (db_lower s) (Text.chars v') ->
  query R model_validate params (Some v) cpf_filter s = (Return page, s1) ->
  query R model_validate params (Some v') cpf_filter s = (Return page', s2) ->
  page = page'.
Proof.
  intros Hp Hp' Hl Hret Hret'.
  destruct (query_run R model_validate params (Some v) cpf_filter s)
    as [f [E [_ [_ Hf]]]].
  destruct (query_run R model_validate params (Some v') cpf_filter s)
    as [f' [E' [_ [_ Hf']]]].
  rewrite E in Hret. rewrite E' in Hret'.
  injection Hret as <- _. injection Hret' as <- _.
  do 2 f_equal. apply filter_ext. intros a.
  rewrite (Hf v eq_refl Hp), (Hf' v' eq_refl Hp').
  now rewrite (icontains_lower _ _ _ _ Hl).
Qed.

Lemma query_name_filter_ignores_case_witness :
  fst (query string Sample.resumo Sample.window (Some "SOUZA") None Sample.db)
  = fst (query string Sample.resumo Sample.window (Some "souza") None Sample.db).
Proof.
  exact (f_equal Return
           (query_name_filter_ignores_case string Sample.resumo Sample.window
              "SOUZA" "souza" None Sample.db Sample.db Sample.db
              (paginate Sample.window ["Mariana Souza"])
              (paginate Sample.window ["Mariana Souza"])
              eq_refl eq_refl eq_refl eq_refl eq_refl)).
Defined.

(* ================================================================= *)
(** ** Further properties: [post] with the other handlers *)

Lemma post_return_rows (env : Env) (atleta_in : AtletaIn) (s s' : Session)
    (out : AtletaOut) :
  post env atleta_in s = (Return out, s') ->
  exists categoria centro,
    categoria_resolves s (categoria_in_nome (in_categoria atleta_in)) categoria
    /\ centro_resolves s (centro_in_nome (in_centro_treinamento atleta_in)) centro
    /\ flush env (view s ++ [inserted_row env atleta_in categoria centro s]) = Accepted
    /\ out = mk_AtletaOut (uuid4 env) (utcnow env) atleta_in
    /\ s' = committed (view s ++ [inserted_row env atleta_in categoria centro s]) s.
Proof.
  intros E.
  destruct (post_cases env atleta_in s) as [[_ E']|[[_ [_ E']]|[c [t [Hc Ht]]]]];
    try (rewrite E' in E; discriminate E).
  exists c, t. rewrite (post_run env atleta_in s c t Hc Ht) in E.
  destruct (flush env _) eqn:Hf; try discriminate E.
  injection E as <- <-. repeat split; assumption.
Qed.

Lemma find_snoc {A : Type} (p : A -> bool) (l : list A) (x : A) :
  find p (l ++ [x]) =
  match find p l with
  | Some y => Some y
  | None => if p x then Some x else None
  end.
Proof.
  induction l as [|z l IH]; simpl; [reflexivity|].
  destruct (p z); [reflexivity | exact IH].
Qed.

Lemma find_fresh_id (u : UUID) (rows : list AtletaModel) :
  ~ In u (map id rows) -> find (fun r => N.eqb (id r) u) rows = None.
Proof.
  intros H. apply find_absent. intros a Ha.
  destruct (N.eqb (id a) u) eqn:E; [|reflexivity].
  apply N.eqb_eq in E. exfalso. apply H. rewrite <- E. now apply in_map.
Qed.

(** X5. Whenever [post] returns, with an identifier no row carried before,
    a [get] with the identifier of the answer returns the row just stored,
    and that row has the name, CPF, weight, height and sex of the request
    and the creation time of the answer. *)
Theorem post_then_get (env : Env) (atleta_in : AtletaIn) (s s' : Session)
    (out : AtletaOut) :
  post env atleta_in s = (Return out, s') ->
  ~ In (uuid4 env) (map id (view s)) ->
  exists row,
    get (out_id out) s' = (Return row, s')
    /\ id row = out_id out /\ created_at row = out_created_at out
    /\ nome row = in_nome atleta_in /\ cpf row = in_cpf atleta_in
    /\ peso row = in_peso atleta_in /\ altura row = in_altura atleta_in
    /\ sexo row = in_sexo atleta_in.
Proof.
  intros E Hfresh.
  destruct (post_return_rows _ _ _ _ _ E) as [c [t [_ [_ [_ [-> ->]]]]]].
  exists (inserted_row env atleta_in c t s). split.
  - apply get_found.
    cbn [view pending committed set_pending set_atletas atletas out_id mk_AtletaOut].
    rewrite find_snoc, (find_fresh_id _ _ Hfresh).
    cbn. now rewrite N.eqb_refl.
  - repeat split.
Qed.

Lemma post_then_get_witness :
  exists row,
    get 30%N (snd (post Sample.env Sample.joao_in Sample.db))
    = (Return row, snd (post Sample.env Sample.joao_in Sample.db))
    /\ nome row = "Joao".
Proof.
  assert (Hfresh : ~ In (uuid4 Sample.env) (map id (view Sample.db))).
  { simpl. intuition discriminate. }
  destruct (post_then_get Sample.env Sample.joao_in Sample.db _ _ eq_refl Hfresh)
    as [row [E [_ [_ [Hn _]]]]].
  exists row. split; [exact E | exact Hn].
Defined.

(** X6. Whenever [post] returns, the table is the one before with one row
    added at the end, and every identifier that [get] resolved before
    resolves to the same row after. *)
Theorem post_keeps_earlier_rows (env : Env) (atleta_in : AtletaIn) (s s' : Session)
    (out : AtletaOut) :
  post env atleta_in s = (Return out, s') ->
  (exists row, atletas s' = (view s ++ [row])%list /\ cpf row = in_cpf atleta_in)
  /\ (forall id_ a, get id_ s = (Return a, s) -> get id_ s' = (Return a, s')).
Proof.
  intros E.
  destruct (post_return_rows _ _ _ _ _ E) as [c [t [_ [_ [_ [-> ->]]]]]].
  split.
  - exists (inserted_row env atleta_in c t s). split; reflexivity.
  - intros id_ a Hg. unfold get, bind, scalars_first in Hg.
    destruct (find (fun r => N.eqb (id r) id_) (view s)) as [b|] eqn:Hf;
      [|discriminate Hg].
    injection Hg as ->. apply get_found.
    cbn [view pending committed set_pending set_atletas atletas].
    now rewrite find_snoc, Hf.
Qed.

Lemma post_keeps_earlier_rows_witness :
  get 10%N (snd (post Sample.env Sample.joao_in Sample.db))
  = (Return Sample.ana, snd (post Sample.env Sample.joao_in Sample.db)).
Proof.
  exact (proj2 (post_keeps_earlier_rows Sample.env Sample.joao_in Sample.db _ _ eq_refl)
           10%N Sample.ana eq_refl).
Defined.

(** X7. Once both references of a create request have resolved, on a
    session with no transaction in flight, everything [post] still does
    stands inside its [try]: it answers with status 201, 409 or 500 and with
    no other; whatever the persistence step raises is caught and comes out
    as an [HTTPException]; when it raises, the session is exactly the one it
    was given; and it leaves no transaction in flight. *)
Theorem post_persistence_outcomes (env : Env) (atleta_in : AtletaIn) (s : Session)
    (categoria : CategoriaModel) (centro : CentroTreinamentoModel) :
  categoria_resolves s (categoria_in_nome (in_categoria atleta_in)) categoria ->
  centro_resolves s (centro_in_nome (in_centro_treinamento atleta_in)) centro ->
  pending s = None ->
  In (response_status post_status_code (fst (post env atleta_in s)))
    persistence_statuses
  /\ (forall e, fst (post env atleta_in s) = Raise e ->
                (exists code detail, e = HTTPException code detail)
                /\ snd (post env atleta_in s) = s)
  /\ pending (snd (post env atleta_in s)) = None.
Proof.
  intros Hc Ht Hidle. rewrite (post_run env atleta_in s categoria centro Hc Ht).
  destruct (flush env _); cbn.
  - split; [tauto|]. split; [|reflexivity]. intros e He. discriminate He.
  - split; [tauto|]. split; [|reflexivity].
    intros e He. injection He as <-.
    split; [now eexists; eexists | now apply set_pending_idle].
  - split; [tauto|]. split; [|reflexivity].
    intros e He. injection He as <-.
    split; [now eexists; eexists | now apply set_pending_idle].
Qed.

Lemma post_persistence_outcomes_witness :
  In (response_status post_status_code
        (fst (post Sample.env_down Sample.joao_in Sample.db))) persistence_statuses
  /\ pending (snd (post Sample.env_down Sample.joao_in Sample.db)) = None.
Proof.
  destruct (post_persistence_outcomes Sample.env_down Sample.joao_in Sample.db
              Sample.scale Sample.ct_king eq_refl eq_refl eq_refl) as [H [_ Hp]].
  split; [exact H | exact Hp].
Defined.

Lemma delete_found (env : Env) (id_ : UUID) (s : Session) (a : AtletaModel) :
  find (fun r => N.eqb (id r) id_) (view s) = Some a ->
  delete env id_ s =
  match flush env (without_row a (view s)) with
  | Accepted => (Return tt, committed (without_row a (view s)) s)
  | Integrity c =>
      (Raise (IntegrityError c), set_pending (Some (without_row a (view s))) s)
  | Failed cause =>
      (Raise (OtherException cause), set_pending (Some (without_row a (view s))) s)
  end.
Proof.
  intros Hfind. unfold delete, bind, scalars_first. rewrite Hfind.
  unfold session_delete, commit. cbn [view pending set_pending].
  fold (without_row a (view s)). destruct (flush env _); reflexivity.
Qed.

Lemma without_last_row (rows : list AtletaModel) (a : AtletaModel) :
  pk_id a = next_pk rows -> without_row a (rows ++ [a]) = rows.
Proof.
  intros Hpk. unfold without_row. rewrite filter_app. cbn [filter].
  rewrite Z.eqb_refl. cbn [negb]. rewrite app_nil_r.
  assert (H : forall l : list AtletaModel,
             (forall r, In r l -> pk_id r < pk_id a) ->
             filter (fun r => negb (pk_id r =? pk_id a)) l = l).
  { induction l as [|z l IH]; intros Hl; [reflexivity|]. cbn [filter].
    assert (Hz : (pk_id z =? pk_id a) = false).
    { apply Z.eqb_neq. specialize (Hl z (or_introl eq_refl)). lia. }
    rewrite Hz. cbn [negb]. f_equal. apply IH. intros r Hr. apply Hl. now right. }
  apply H. intros r Hr. rewrite Hpk. now apply next_pk_fresh.
Qed.

Lemma cpf_unique_before (rows : list AtletaModel) (a : AtletaModel) :
  NoDup (map cpf (rows ++ [a])) ->
  NoDup (map cpf rows) /\ ~ In (cpf a) (map cpf rows).
Proof.
  rewrite map_app. cbn [map]. intros H. split.
  - apply NoDup_remove_1 in H. now rewrite app_nil_r in H.
  - apply NoDup_remove_2 in H. now rewrite app_nil_r in H.
Qed.

(** X8. Whenever [post] returns for a request whose CPF is not empty, the
    listing filtered by that CPF alone finds the athlete just stored and no
    other: the full result is the summary of that one row. *)
Theorem post_then_query_by_cpf (R : Type)
    (model_validate : Session -> AtletaModel -> R) (params : LimitOffsetParams)
    (env : Env) (atleta_in : AtletaIn) (s s' : Session) (out : AtletaOut) :
  post env atleta_in s = (Return out, s') ->
  in_cpf atleta_in <> EmptyString ->
  exists row,
    query R model_validate params None (Some (in_cpf atleta_in)) s'
    = (Return (paginate params [model_validate s' row]), s')
    /\ id row = out_id out /\ cpf row = in_cpf atleta_in
    /\ nome row = in_nome atleta_in.
Proof.
  intros E Hne.
  destruct (post_return_rows _ _ _ _ _ E) as [c [t [_ [_ [Hf [-> ->]]]]]].
  apply flush_accepted in Hf. apply cpf_unique_before in Hf. destruct Hf as [_ Hnew].
  change (~ In (in_cpf atleta_in) (map cpf (view s))) in Hnew.
  exists (inserted_row env atleta_in c t s). split; [|repeat split].
  destruct (query_run R model_validate params None (Some (in_cpf atleta_in))
              (committed (view s ++ [inserted_row env atleta_in c t s]) s))
    as [by_nome [Eq [Hnone _]]].
  rewrite Eq, (Hnone eq_refl). do 4 f_equal.
  cbn [view pending committed set_pending set_atletas atletas].
  apply truthy_nonempty in Hne.
  unfold cpf_equals_if_truthy, supplied. rewrite Hne. cbn [cpf_equals andb].
  rewrite filter_app. fold (with_cpf (in_cpf atleta_in) (view s)).
  rewrite (with_cpf_absent _ _ Hnew). cbn. now rewrite String.eqb_refl.
Qed.

Lemma post_then_query_by_cpf_witness :
  exists row,
    fst (query string Sample.resumo Sample.window None (Some "33333333333")
           (snd (post Sample.env Sample.joao_in Sample.db)))
    = Return (paginate Sample.window [nome row])
    /\ nome row = "Joao".
Proof.
  assert (Hne : in_cpf Sample.joao_in <> EmptyString) by discriminate.
  destruct (post_then_query_by_cpf string Sample.resumo Sample.window Sample.env
              Sample.joao_in Sample.db
              (snd (post Sample.env Sample.joao_in Sample.db))
              (mk_AtletaOut 30%N 3000 Sample.joao_in) eq_refl Hne)
    as [row [E [_ [_ Hn]]]].
  exists row. split; [exact (f_equal fst E) | exact Hn].
Defined.

(** X9. A create that returns, with an identifier no row carried before,
    followed by a [delete] with the identifier of the answer, on an engine
    that does not fail, brings the table back to what it was: the delete
    returns, commits, and the rows are those from before the create. *)
Theorem post_then_delete (env env' : Env) (atleta_in : AtletaIn) (s s1 : Session)
    (out : AtletaOut) :
  post env atleta_in s = (Return out, s1) ->
  ~ In (uuid4 env) (map id (view s)) ->
  flush_fault env' = None ->
  exists s2,
    delete env' (out_id out) s1 = (Return tt, s2)
    /\ atletas s2 = view s /\ pending s2 = None
    /\ categorias s2 = categorias s
    /\ centros_treinamento s2 = centros_treinamento s.
Proof.
  intros E Hfresh Hnf.
  destruct (post_return_rows _ _ _ _ _ E) as [c [t [_ [_ [Hf [-> ->]]]]]].
  apply flush_accepted in Hf. apply cpf_unique_before in Hf. destruct Hf as [Hnd _].
  assert (Hfind : find (fun r => N.eqb (id r) (uuid4 env))
                    (view (committed (view s ++ [inserted_row env atleta_in c t s]) s))
                  = Some (inserted_row env atleta_in c t s)).
  { cbn [view pending committed set_pending set_atletas atletas].
    rewrite find_snoc, (find_fresh_id _ _ Hfresh). cbn. now rewrite N.eqb_refl. }
  cbn [out_id mk_AtletaOut]. rewrite (delete_found _ _ _ _ Hfind).
  cbn [view pending committed set_pending set_atletas atletas].
  rewrite without_last_row by reflexivity.
  unfold flush. rewrite Hnf. unfold unique_cpf.
  replace (distinct (map cpf (view s))) with true
    by (symmetry; now apply distinct_NoDup).
  eexists. split; [reflexivity|]. repeat split.
Qed.

Lemma post_then_delete_witness :
  exists s2,
    delete Sample.env2 30%N (snd (post Sample.env Sample.joao_in Sample.db))
    = (Return tt, s2)
    /\ atletas s2 = [Sample.ana; Sample.bob].
Proof.
  assert (Hfresh : ~ In (uuid4 Sample.env) (map id (view Sample.db))).
  { simpl. intuition discriminate. }
  destruct (post_then_delete Sample.env Sample.env2 Sample.joao_in Sample.db
              (snd (post Sample.env Sample.joao_in Sample.db))
              (mk_AtletaOut 30%N 3000 Sample.joao_in) eq_refl Hfresh eq_refl)
    as [s2 [E [Hrows _]]].
  exists s2. split; [exact E | exact Hrows].
Defined.

(* ================================================================= *)
(** ** Further properties: [patch] and [delete] *)

Lemma patch_accepted (env : Env) (id_ : UUID) (atleta_up : AtletaUpdate)
    (s : Session) (a : AtletaModel) :
  find (fun r => N.eqb (id r) id_) (view s) = Some a ->
  NoDup (map pk_id (view s)) ->
  flush env (replace_row (updated atleta_up a) (view s)) = Accepted ->
  patch env id_ atleta_up s
  = (Return (updated atleta_up a),
     committed (replace_row (updated atleta_up a) (view s)) s).
Proof.
  intros Hfind Hnd Hflush.
  destruct (lookup_found _ _ _ Hfind) as [Hin _].
  destruct (patch_loop atleta_up a s Hnd Hin)
    as [s1 [Hloop [Hview [Hat [Hcat [Hct Hlo]]]]]].
  unfold patch, bind, scalars_first. rewrite Hfind, Hloop.
  unfold commit. rewrite Hview, Hflush. unfold refresh, ret.
  cbn [view pending atletas set_pending set_atletas].
  rewrite find_replaced by now exists a.
  unfold committed, set_pending, set_atletas. cbn. now rewrite Hcat, Hct, Hlo.
Qed.

Lemma patch_refused_run (env : Env) (id_ : UUID) (atleta_up : AtletaUpdate)
    (s : Session) (a : AtletaModel) :
  find (fun r => N.eqb (id r) id_) (view s) = Some a ->
  NoDup (map pk_id (view s)) ->
  exists s1,
    view s1 = replace_row (updated atleta_up a) (view s)
    /\ atletas s1 = atletas s
    /\ forall e,
         match flush env (replace_row (updated atleta_up a) (view s)) with
         | Accepted => False
         | Integrity c => e = IntegrityError c
         | Failed cause => e = OtherException cause
         end ->
         patch env id_ atleta_up s = (Raise e, s1).
Proof.
  intros Hfind Hnd.
  destruct (lookup_found _ _ _ Hfind) as [Hin _].
  destruct (patch_loop atleta_up a s Hnd Hin) as [s1 [Hloop [Hview [Hat _]]]].
  exists s1. split; [assumption|]. split; [assumption|]. intros e He.
  unfold patch, bind, scalars_first. rewrite Hfind, Hloop.
  unfold commit. rewrite Hview.
  destruct (flush env _); [contradiction | subst e; reflexivity | subst e; reflexivity].
Qed.

Lemma replace_row_pks (a' : AtletaModel) (rows : list AtletaModel) :
  map pk_id (replace_row a' rows) = map pk_id rows.
Proof.
  unfold replace_row. rewrite map_map. apply map_ext. intros r.
  destruct (pk_id r =? pk_id a') eqn:E; [|reflexivity].
  apply Z.eqb_eq in E. now rewrite E.
Qed.

Lemma find_after_replace (id_ : UUID) (rows : list AtletaModel) (a a' : AtletaModel) :
  find (fun r => N.eqb (id r) id_) rows = Some a ->
  NoDup (map pk_id rows) ->
  id a' = id a -> pk_id a' = pk_id a ->
  find (fun r => N.eqb (id r) id_) (replace_row a' rows) = Some a'.
Proof.
  intros Hfind Hnd Hid Hpk.
  induction rows as [|z rows IH]; [discriminate Hfind|].
  cbn [find] in Hfind. cbn [replace_row map find].
  inversion Hnd as [|? ? Hz Hl]; subst.
  destruct (N.eqb (id z) id_) eqn:Ez.
  - injection Hfind as ->. rewrite Hpk, Z.eqb_refl. rewrite Hid, Ez. reflexivity.
  - assert (Hne : (pk_id z =? pk_id a') = false).
    { apply Z.eqb_neq. intros E. apply Hz. rewrite E, Hpk.
      apply in_map. apply find_some in Hfind. tauto. }
    rewrite Hne, Ez. now apply IH.
Qed.

Lemma updated_twice (u : AtletaUpdate) (a : AtletaModel) :
  updated u (updated u a) = updated u a.
Proof.
  destruct u as [[?|] [?|] [?|] [?|] [?|]]; reflexivity.
Qed.

(** X10. After an update whose commit the engine accepts, on a table with
    pairwise different primary keys, a [get] with the same identifier
    returns the very row the update returned: what [patch] answers is what
    is stored. *)
Theorem patch_then_get (env : Env) (id_ : UUID) (atleta_up : AtletaUpdate)
    (s : Session) (a : AtletaModel) :
  find (fun r => N.eqb (id r) id_) (view s) = Some a ->
  NoDup (map pk_id (view s)) ->
  flush env (replace_row (updated atleta_up a) (view s)) = Accepted ->
  exists a' s',
    patch env id_ atleta_up s = (Return a', s')
    /\ get id_ s' = (Return a', s')
    /\ id a' = id_.
Proof.
  intros Hfind Hnd Hflush.
  exists (updated atleta_up a), (committed (replace_row (updated atleta_up a) (view s)) s).
  split; [now apply patch_accepted|]. split.
  - apply get_found. cbn [view pending committed set_pending set_atletas atletas].
    now apply (find_after_replace id_ (view s) a).
  - exact (proj2 (lookup_found _ _ _ Hfind)).
Qed.

Lemma patch_then_get_witness :
  exists a' s',
    patch Sample.env 10%N Sample.only_peso Sample.db = (Return a', s')
    /\ get 10%N s' = (Return a', s').
Proof.
  assert (Hnd : NoDup (map pk_id (view Sample.db))).
  { simpl. repeat constructor; simpl; intuition discriminate. }
  destruct (patch_then_get Sample.env 10%N Sample.only_peso Sample.db Sample.ana
              eq_refl Hnd eq_refl) as [a' [s' [E [Hg _]]]].
  exists a', s'. split; assumption.
Defined.

(** X11. An update is idempotent: sent a second time, on an engine that
    reports nothing, it returns the same row as the first time and leaves
    the table as the first left it. *)
Theorem patch_twice (env env' : Env) (id_ : UUID) (atleta_up : AtletaUpdate)
    (s : Session) (a : AtletaModel) :
  find (fun r => N.eqb (id r) id_) (view s) = Some a ->
  NoDup (map pk_id (view s)) ->
  flush env (replace_row (updated atleta_up a) (view s)) = Accepted ->
  flush_fault env' = None ->
  exists a' s1 s2,
    patch env id_ atleta_up s = (Return a', s1)
    /\ patch env' id_ atleta_up s1 = (Return a', s2)
    /\ atletas s2 = atletas s1 /\ pending s2 = None.
Proof.
  intros Hfind Hnd Hflush Hnf.
  set (a' := updated atleta_up a).
  set (rows1 := replace_row a' (view s)).
  assert (Hfind1 : find (fun r => N.eqb (id r) id_) (view (committed rows1 s)) = Some a').
  { cbn [view pending committed set_pending set_atletas atletas].
    now apply (find_after_replace id_ (view s) a). }
  assert (Hnd1 : NoDup (map pk_id (view (committed rows1 s)))).
  { cbn [view pending committed set_pending set_atletas atletas].
    unfold rows1. now rewrite replace_row_pks. }
  assert (Hsame : replace_row (updated atleta_up a') (view (committed rows1 s)) = rows1).
  { unfold a'. rewrite updated_twice. fold a'.
    apply replace_row_same; [exact Hnd1|].
    exact (proj1 (lookup_found _ _ _ Hfind1)). }
  assert (Hflush1 : flush env' (replace_row (updated atleta_up a')
                                  (view (committed rows1 s))) = Accepted).
  { rewrite Hsame. unfold flush. rewrite Hnf. unfold unique_cpf.
    replace (distinct (map cpf rows1)) with true; [reflexivity|].
    symmetry. apply distinct_NoDup. now apply (flush_accepted env). }
  exists a', (committed rows1 s), (committed rows1 (committed rows1 s)).
  split; [now apply patch_accepted|]. split.
  - rewrite (patch_accepted env' id_ atleta_up _ a' Hfind1 Hnd1 Hflush1).
    rewrite Hsame. unfold a' at 1. now rewrite updated_twice.
  - split; reflexivity.
Qed.

Lemma patch_twice_witness :
  exists a' s1 s2,
    patch Sample.env 10%N Sample.only_peso Sample.db = (Return a', s1)
    /\ patch Sample.env2 10%N Sample.only_peso s1 = (Return a', s2)
    /\ atletas s2 = atletas s1.
Proof.
  assert (Hnd : NoDup (map pk_id (view Sample.db))).
  { simpl. repeat constructor; simpl; intuition discriminate. }
  destruct (patch_twice Sample.env Sample.env2 10%N Sample.only_peso Sample.db
              Sample.ana eq_refl Hnd eq_refl eq_refl)
    as [a' [s1 [s2 [E1 [E2 [Hrows _]]]]]].
  exists a', s1, s2. repeat split; assumption.
Defined.

Lemma updated_nothing (a : AtletaModel) : updated empty_update a = a.
Proof. destruct a. reflexivity. Qed.

(** X12. An update that sets no field, on a table with pairwise different
    primary keys and with a commit the engine accepts, returns the row as it
    is stored, with status 200, and leaves every row of the table as it
    was; the commit is still issued. *)
Theorem patch_nothing_set (env : Env) (id_ : UUID) (s : Session) (a : AtletaModel) :
  find (fun r => N.eqb (id r) id_) (view s) = Some a ->
  NoDup (map pk_id (view s)) ->
  flush env (view s) = Accepted ->
  patch env id_ empty_update s = (Return a, committed (view s) s)
  /\ response_status patch_status_code (fst (patch env id_ empty_update s)) = 200.
Proof.
  intros Hfind Hnd Hflush.
  assert (Hrows : replace_row (updated empty_update a) (view s) = view s).
  { rewrite updated_nothing. apply replace_row_same; [assumption|].
    exact (proj1 (lookup_found _ _ _ Hfind)). }
  assert (E : patch env id_ empty_update s = (Return a, committed (view s) s)).
  { rewrite (patch_accepted env id_ empty_update s a Hfind Hnd)
      by now rewrite Hrows.
    now rewrite Hrows, updated_nothing. }
  rewrite E. split; reflexivity.
Qed.

Lemma patch_nothing_set_witness :
  patch Sample.env 20%N empty_update Sample.db = (Return Sample.bob, Sample.db).
Proof.
  assert (Hnd : NoDup (map pk_id (view Sample.db))).
  { simpl. repeat constructor; simpl; intuition discriminate. }
  exact (proj1 (patch_nothing_set Sample.env 20%N Sample.db Sample.bob
                  eq_refl Hnd eq_refl)).
Defined.

(** X13. [patch] has no [except]: when the engine turns the commit down,
    the handler raises the engine's own exception, an [IntegrityError] for a
    violated constraint (the CPF's included) and the failure otherwise, so
    the response is the framework's 500 and never a 409; and the committed
    table is the one from before. *)
Theorem patch_lets_refusal_through (env : Env) (id_ : UUID) (atleta_up : AtletaUpdate)
    (s : Session) (a : AtletaModel) :
  find (fun r => N.eqb (id r) id_) (view s) = Some a ->
  NoDup (map pk_id (view s)) ->
  flush env (replace_row (updated atleta_up a) (view s)) <> Accepted ->
  exists e s',
    patch env id_ atleta_up s = (Raise e, s')
    /\ match flush env (replace_row (updated atleta_up a) (view s)) with
       | Accepted => False
       | Integrity c => e = IntegrityError c
       | Failed cause => e = OtherException cause
       end
    /\ engine_exception e
    /\ response_status patch_status_code (fst (patch env id_ atleta_up s)) = 500
    /\ atletas s' = atletas s.
Proof.
  intros Hfind Hnd Hflush.
  destruct (patch_refused_run env id_ atleta_up s a Hfind Hnd)
    as [s1 [_ [Hat Hrun]]].
  destruct (flush env (replace_row (updated atleta_up a) (view s))) as [|c|cause];
    [contradiction| |].
  - exists (IntegrityError c), s1. rewrite (Hrun _ eq_refl).
    repeat split; try reflexivity; assumption.
  - exists (OtherException cause), s1. rewrite (Hrun _ eq_refl).
    repeat split; try reflexivity; assumption.
Qed.

Lemma patch_lets_refusal_through_witness :
  exists s',
    patch Sample2.env_clash 10%N Sample2.steal_cpf Sample.db
    = (Raise (IntegrityError uq_cpf), s')
    /\ atletas s' = [Sample.ana; Sample.bob].
Proof.
  assert (Hnd : NoDup (map pk_id (view Sample.db))).
  { simpl. repeat constructor; simpl; intuition discriminate. }
  assert (Hflush : flush Sample2.env_clash
                     (replace_row (updated Sample2.steal_cpf Sample.ana)
                        (view Sample.db)) <> Accepted) by discriminate.
  destruct (patch_lets_refusal_through Sample2.env_clash 10%N Sample2.steal_cpf
              Sample.db Sample.ana eq_refl Hnd Hflush)
    as [e [s' [E [He [_ [_ Hat]]]]]].
  exists s'. cbn in He. subst e. split; [exact E | exact Hat].
Defined.

(** X14. [delete] has no [except] either: when the engine turns the commit
    down, the handler raises the engine's own exception, the response is the
    framework's 500, and the committed table still holds the row. *)
Theorem delete_lets_refusal_through (env : Env) (id_ : UUID) (s : Session)
    (a : AtletaModel) :
  find (fun r => N.eqb (id r) id_) (view s) = Some a ->
  flush env (without_row a (view s)) <> Accepted ->
  exists e s',
    delete env id_ s = (Raise e, s')
    /\ match flush env (without_row a (view s)) with
       | Accepted => False
       | Integrity c => e = IntegrityError c
       | Failed cause => e = OtherException cause
       end
    /\ engine_exception e
    /\ response_status delete_status_code (fst (delete env id_ s)) = 500
    /\ atletas s' = atletas s
    /\ (pending s = None -> In a (atletas s')).
Proof.
  intros Hfind Hflush. rewrite (delete_found env id_ s a Hfind).
  pose proof (proj1 (lookup_found _ _ _ Hfind)) as Hin.
  destruct (flush env (without_row a (view s))) as [|c|cause]; [contradiction| |].
  - exists (IntegrityError c). eexists. repeat split.
    intros Hidle. unfold view in Hin. now rewrite Hidle in Hin.
  - exists (OtherException cause). eexists. repeat split.
    intros Hidle. unfold view in Hin. now rewrite Hidle in Hin.
Qed.

Lemma delete_lets_refusal_through_witness :
  exists s',
    delete Sample.env_down 10%N Sample.db
    = (Raise (OtherException "connection lost"), s')
    /\ atletas s' = [Sample.ana; Sample.bob].
Proof.
  assert (Hflush : flush Sample.env_down (without_row Sample.ana (view Sample.db))
                   <> Accepted) by discriminate.
  destruct (delete_lets_refusal_through Sample.env_down 10%N Sample.db Sample.ana
              eq_refl Hflush) as [e [s' [E [He [_ [_ [Hat _]]]]]]].
  exists s'. cbn in He. subst e. split; [exact E | exact Hat].
Defined.

Lemma lookup_exists (s : Session) (id_ : UUID) (a : AtletaModel) :
  find (fun r => N.eqb (id r) id_) (view s) = Some a -> atleta_exists s id_.
Proof.
  intros H. apply lookup_found in H. now exists a.
Qed.

(** X15. [delete] touches one athlete only: on a table whose keys are
    pairwise different and with an engine that does not fail, after the
    deletion every other athlete is still returned by [get], unchanged, and
    a second [delete] with the same identifier fails with status 404 and
    changes nothing. *)
Theorem delete_leaves_the_others (env env' : Env) (id_ : UUID) (s : Session)
    (a : AtletaModel) :
  find (fun r => N.eqb (id r) id_) (view s) = Some a ->
  consistent (view s) ->
  flush_fault env = None ->
  exists s',
    delete env id_ s = (Return tt, s')
    /\ (forall b, In b (view s) -> b <> a -> get (id b) s' = (Return b, s'))
    /\ delete env' id_ s'
       = (Raise (HTTPException HTTP_404_NOT_FOUND
                   ("Atleta não encontrado no id: " ++ uuid_str id_)), s').
Proof.
  intros Hfind Hc Hnf. pose proof (delete_keeps_consistent _ a Hc) as Hc'.
  destruct Hc as [Hpk Hid Hcpf]. destruct Hc' as [Hpk' Hid' Hcpf'].
  destruct (lookup_found _ _ _ Hfind) as [Hin Ha].
  assert (Hflush : flush env (without_row a (view s)) = Accepted).
  { unfold flush. rewrite Hnf. unfold unique_cpf.
    replace (distinct (map cpf (without_row a (view s)))) with true; [reflexivity|].
    symmetry. now apply distinct_NoDup. }
  exists (committed (without_row a (view s)) s).
  rewrite (delete_found env id_ s a Hfind), Hflush.
  split; [reflexivity|]. split.
  - intros b Hb Hne. apply get_found.
    cbn [view pending committed set_pending set_atletas atletas].
    apply find_by_id; [assumption|].
    unfold without_row. apply filter_In. split; [assumption|].
    apply negb_true_iff, Z.eqb_neq. intros E. apply Hne.
    now apply (NoDup_map_eq pk_id (view s)).
  - assert (Hgone : ~ atleta_exists (committed (without_row a (view s)) s) id_).
    { intros [r [Hr Er]]. cbn in Hr. unfold without_row in Hr.
      apply filter_In in Hr. destruct Hr as [Hr Hp].
      apply negb_true_iff, Z.eqb_neq in Hp. apply Hp. f_equal.
      apply (NoDup_map_eq id (view s)); try assumption. congruence. }
    apply lookup_absent in Hgone.
    unfold delete, bind, scalars_first. rewrite Hgone. reflexivity.
Qed.

Lemma delete_leaves_the_others_witness :
  exists s',
    delete Sample.env 10%N Sample.db = (Return tt, s')
    /\ get 20%N s' = (Return Sample.bob, s')
    /\ fst (delete Sample.env2 10%N s')
       = Raise (HTTPException 404
                  "Atleta não encontrado no id: 00000000-0000-0000-0000-00000000000a").
Proof.
  assert (Hc : consistent (view Sample.db)).
  { split; simpl; repeat constructor; simpl; intuition discriminate. }
  destruct (delete_leaves_the_others Sample.env Sample.env2 10%N Sample.db Sample.ana
              eq_refl Hc eq_refl) as [s' [E [Hothers Hagain]]].
  exists s'. split; [exact E|]. split.
  - apply (Hothers Sample.bob); [right; now left | discriminate].
  - rewrite Hagain. reflexivity.
Defined.

(** X16. The handlers keep the keys of the table pairwise different:
    starting from a table whose primary keys, identifiers and CPFs are
    pairwise different, whenever [post] (with an identifier no row carries
    yet), [patch] or [delete] returns, the table it leaves has pairwise
    different primary keys, identifiers and CPFs again. *)
Theorem handlers_keep_keys_apart (env : Env) (s : Session) :
  consistent (view s) ->
  (forall atleta_in out s',
      post env atleta_in s = (Return out, s') ->
      ~ In (uuid4 env) (map id (view s)) -> consistent (view s'))
  /\ (forall id_ atleta_up a' s',
         patch env id_ atleta_up s = (Return a', s') -> consistent (view s'))
  /\ (forall id_ s', delete env id_ s = (Return tt, s') -> consistent (view s')).
Proof.
  intros Hc. split; [|split].
  - intros atleta_in out s' E Hfresh.
    destruct (post_return_rows _ _ _ _ _ E) as [c [t [_ [_ [Hf [_ ->]]]]]].
    cbn [view pending committed set_pending set_atletas atletas].
    now apply (post_keeps_consistent env).
  - intros id_ atleta_up a' s' E.
    destruct (find (fun r => N.eqb (id r) id_) (view s)) as [a|] eqn:Hfind.
    + pose proof (pk_unique _ Hc) as Hnd.
      destruct (flush env (replace_row (updated atleta_up a) (view s))) eqn:Hf.
      * rewrite (patch_accepted env id_ atleta_up s a Hfind Hnd Hf) in E.
        injection E as _ <-.
        cbn [view pending committed set_pending set_atletas atletas].
        apply (patch_keeps_consistent env); try assumption.
        exact (proj1 (lookup_found _ _ _ Hfind)).
      * destruct (patch_refused_run env id_ atleta_up s a Hfind Hnd)
          as [s1 [_ [_ Hrun]]].
        rewrite Hf in Hrun. rewrite (Hrun _ eq_refl) in E. discriminate E.
      * destruct (patch_refused_run env id_ atleta_up s a Hfind Hnd)
          as [s1 [_ [_ Hrun]]].
        rewrite Hf in Hrun. rewrite (Hrun _ eq_refl) in E. discriminate E.
    + unfold patch, bind, scalars_first in E. rewrite Hfind in E. discriminate E.
  - intros id_ s' E.
    destruct (find (fun r => N.eqb (id r) id_) (view s)) as [a|] eqn:Hfind.
    + rewrite (delete_found env id_ s a Hfind) in E.
      destruct (flush env _); try discriminate E. injection E as <-.
      cbn [view pending committed set_pending set_atletas atletas].
      now apply delete_keeps_consistent.
    + unfold delete, bind, scalars_first in E. rewrite Hfind in E. discriminate E.
Qed.

Lemma handlers_keep_keys_apart_witness :
  consistent (view (snd (post Sample.env Sample.joao_in Sample.db)))
  /\ consistent (view (snd (delete Sample.env 10%N Sample.db))).
Proof.
  assert (Hc : consistent (view Sample.db)).
  { split; simpl; repeat constructor; simpl; intuition discriminate. }
  assert (Hfresh : ~ In (uuid4 Sample.env) (map id (view Sample.db))).
  { simpl. intuition discriminate. }
  destruct (handlers_keep_keys_apart Sample.env Sample.db Hc) as [Hpost [_ Hdel]].
  split.
  - exact (Hpost Sample.joao_in (mk_AtletaOut 30%N 3000 Sample.joao_in) _ eq_refl Hfresh).
  - exact (Hdel 10%N _ eq_refl).
Defined.

(** X17. The only [HTTPException] that [get], [patch] and [delete] raise is
    the 404, and they raise it only when no athlete row carries the
    identifier: whatever the engine does, none of them answers 400, 409 or
    a 500 of its own. *)
Theorem only_not_found_is_raised (env : Env) (id_ : UUID) (atleta_up : AtletaUpdate)
    (s : Session) (code : Z) (detail : string) :
  fst (get id_ s) = Raise (HTTPException code detail)
  \/ fst (patch env id_ atleta_up s) = Raise (HTTPException code detail)
  \/ fst (delete env id_ s) = Raise (HTTPException code detail) ->
  code = HTTP_404_NOT_FOUND
  /\ detail = "Atleta não encontrado no id: " ++ uuid_str id_
  /\ ~ atleta_exists s id_.
Proof.
  intros H.
  destruct (find (fun r => N.eqb (id r) id_) (view s)) as [a|] eqn:Hfind.
  - exfalso. destruct H as [H|[H|H]].
    + rewrite (get_found _ _ _ Hfind) in H. discriminate H.
    + unfold patch, bind, scalars_first in H. rewrite Hfind in H.
      rewrite setattr_items_run in H. unfold commit in H.
      destruct (flush env _); try discriminate H.
      unfold refresh, ret in H.
      destruct (find _ (view (set_pending None _))); discriminate H.
    + rewrite (delete_found env id_ s a Hfind) in H.
      destruct (flush env _); discriminate H.
  - assert (Hnone : ~ atleta_exists s id_).
    { intros [r [Hr Er]]. apply (find_none _ _ Hfind) in Hr.
      rewrite Er, N.eqb_refl in Hr. discriminate Hr. }
    unfold get, patch, delete, bind, scalars_first in H. rewrite Hfind in H.
    cbn in H. split; [|split]; [| |exact Hnone];
      destruct H as [H|[H|H]]; injection H as <- <-; reflexivity.
Qed.

Lemma only_not_found_is_raised_witness :
  ~ atleta_exists Sample.db 99%N.
Proof.
  exact (proj2 (proj2
           (only_not_found_is_raised Sample.env 99%N Sample.only_peso Sample.db 404
              "Atleta não encontrado no id: 00000000-0000-0000-0000-000000000063"
              (or_intror (or_introl eq_refl))))).
Defined.
